(** * session_memory_chatbot: the StatefulChatbot class of chatbot.py

    A shallow embedding of [StatefulChatbot]: its attributes become a record,
    its methods become computations in a small state-and-exception monad
    (a Python exception leaves the attributes as they were when it was
    raised), and the remote model becomes an oracle passed to every call that
    can reach it. *)

From Stdlib Require Import String Ascii List Arith Lia Bool.
From stdpp Require Import base option strings list gmap.

Open Scope string_scope.
Open Scope list_scope.
Open Scope nat_scope.

(** ** Python values *)

(** Truth value of a [str]: only the empty string is false. *)
Definition truthy_str (s : string) : bool := negb (String.eqb s "").

(** Truth value of an [Optional[str]]: [None] and the empty string are false. *)
Definition truthy (o : option string) : bool :=
  match o with
  | Some s => truthy_str s
  | None => false
  end.

(** [a or b] on [Optional[str]]. *)
Definition py_or (a b : option string) : option string :=
  if truthy a then a else b.

(** The text an f-string inserts for a [str] the branch has found truthy. *)
Definition str_of (o : option string) : string := default "" o.

Definition nl : string := String "010"%char EmptyString.

(** A [dict] with string keys and values, in insertion order: assigning to a
    key that is present keeps its position, a new key goes last. *)
Fixpoint dict_set (d : list (string * string)) (key value : string)
  : list (string * string) :=
  match d with
  | [] => [(key, value)]
  | (k, v) :: rest =>
      if String.eqb k key then (k, value) :: rest
      else (k, v) :: dict_set rest key value
  end.

(** ** The classes chatbot.py imports *)

Module LangChain.

(** One saved exchange: the input and the output handed to [save_context]. *)
Record Exchange := { input : string; output : string }.

Inductive Role := Human | AI.

Record BaseMessage := { role : Role; content : string }.

(** [chat_memory.messages]: every exchange is a human message followed by
    the model's message. *)
Definition messages (buffer : list Exchange) : list BaseMessage :=
  flat_map (fun e => [ {| role := Human; content := input e |};
                       {| role := AI; content := output e |} ]) buffer.

(** The endpoint behind [ChatOpenAI]. [invoke] answers a bare prompt
    ([llm.invoke(prompt).content]); [complete] answers the chain's prompt,
    made of the history and the input. [None] is a call that raises. One
    value of this type describes the answers during one method call, so two
    calls of [chat] may be given different ones. *)
Record ChatOpenAI := {
  invoke : string -> option string;
  complete : list BaseMessage -> string -> option string
}.

(** [k=10] in the constructor call of chatbot.py. *)
Definition k : nat := 10.

(** Modelled from the spec: the rolling buffer class
    [ConversationBufferWindowMemory], which chatbot.py imports and does not
    define. Section 4.2: an append-only sequence bounded to the most recent
    10 entries, the oldest entries evicted once capacity is exceeded; an
    entry is one turn (section 3). *)
Definition window_save_context (buffer : list Exchange) (e : Exchange)
  : list Exchange :=
  let appended := buffer ++ [e] in
  drop (length appended - k) appended.

(** Modelled from the spec: [clear()] of the rolling buffer empties the
    sequence unconditionally (section 4.2). *)
Definition window_clear (buffer : list Exchange) : list Exchange := [].

(** Modelled from the spec: the standing summary class
    [ConversationSummaryMemory], imported and not defined by chatbot.py.
    Section 3: it holds zero or more saved summary entries, each an
    input/output pair; saving appends one. *)
Definition summary_save_context (entries : list Exchange) (e : Exchange)
  : list Exchange :=
  entries ++ [e].

Definition summary_clear (entries : list Exchange) : list Exchange := [].

End LangChain.

Import LangChain.

(** ** Attributes *)

(** One element of a profile's ["conversation_history"]. *)
Record HistoryEntry := { user : string; assistant : string }.

(** A value of [user_profiles]. *)
Record Profile := {
  name : option string;
  preferences : list (string * string);
  conversation_history : list HistoryEntry
}.

Definition set_name (n : option string) (p : Profile) : Profile :=
  {| name := n;
     preferences := preferences p;
     conversation_history := conversation_history p |}.

Definition set_preferences (d : list (string * string)) (p : Profile) : Profile :=
  {| name := name p;
     preferences := d;
     conversation_history := conversation_history p |}.

Definition set_conversation_history (h : list HistoryEntry) (p : Profile) : Profile :=
  {| name := name p;
     preferences := preferences p;
     conversation_history := h |}.

(** The attributes of a [StatefulChatbot] that its methods read and write,
    and the lines the process has printed. *)
Record StatefulChatbot := {
  session_memory : list Exchange;
  summary_memory : list Exchange;
  user_profiles : gmap string Profile;
  current_session_id : option string;
  message_count : nat;
  stdout : list string
}.

(** The attributes after [__init__] (with an API key). *)
Definition new_chatbot : StatefulChatbot :=
  {| session_memory := [];
     summary_memory := [];
     user_profiles := ∅;
     current_session_id := None;
     message_count := 0;
     stdout := [] |}.

Definition with_session_memory (v : list Exchange) (s : StatefulChatbot) :=
  {| session_memory := v;
     summary_memory := summary_memory s;
     user_profiles := user_profiles s;
     current_session_id := current_session_id s;
     message_count := message_count s;
     stdout := stdout s |}.

Definition with_summary_memory (v : list Exchange) (s : StatefulChatbot) :=
  {| session_memory := session_memory s;
     summary_memory := v;
     user_profiles := user_profiles s;
     current_session_id := current_session_id s;
     message_count := message_count s;
     stdout := stdout s |}.

Definition with_user_profiles (v : gmap string Profile) (s : StatefulChatbot) :=
  {| session_memory := session_memory s;
     summary_memory := summary_memory s;
     user_profiles := v;
     current_session_id := current_session_id s;
     message_count := message_count s;
     stdout := stdout s |}.

Definition with_current_session_id (v : option string) (s : StatefulChatbot) :=
  {| session_memory := session_memory s;
     summary_memory := summary_memory s;
     user_profiles := user_profiles s;
     current_session_id := v;
     message_count := message_count s;
     stdout := stdout s |}.

Definition with_message_count (v : nat) (s : StatefulChatbot) :=
  {| session_memory := session_memory s;
     summary_memory := summary_memory s;
     user_profiles := user_profiles s;
     current_session_id := current_session_id s;
     message_count := v;
     stdout := stdout s |}.

Definition with_stdout (v : list string) (s : StatefulChatbot) :=
  {| session_memory := session_memory s;
     summary_memory := summary_memory s;
     user_profiles := user_profiles s;
     current_session_id := current_session_id s;
     message_count := message_count s;
     stdout := v |}.

(** ** Methods as computations *)

Inductive Exception :=
| ValueError (msg : string)
| KeyError (key : string)
| UpstreamError.

Inductive Result (A : Type) :=
| Return (a : A)
| Raise (e : Exception).

Arguments Return {A} a.
Arguments Raise {A} e.

(** A method body: from the attributes to a result and the attributes it
    leaves behind. *)
Definition M (A : Type) : Type := StatefulChatbot -> Result A * StatefulChatbot.

Definition ret {A} (a : A) : M A := fun s => (Return a, s).

Definition bind {A B} (m : M A) (f : A -> M B) : M B :=
  fun s =>
    match m s with
    | (Return a, s') => f a s'
    | (Raise e, s') => (Raise e, s')
    end.

Definition raise {A} (e : Exception) : M A := fun s => (Raise e, s).

Definition gets {A} (f : StatefulChatbot -> A) : M A := fun s => (Return (f s), s).

Definition modify (f : StatefulChatbot -> StatefulChatbot) : M unit :=
  fun s => (Return tt, f s).

#[global] Instance M_ret : MRet M := @ret.
#[global] Instance M_bind : MBind M := fun A B f m => bind m f.

(** [when b: body]. *)
Definition when (b : bool) (body : M unit) : M unit :=
  if b then body else ret tt.

(** [session_id in self.user_profiles]. *)
Definition contains (session_id : string) : M bool :=
  gets (fun s => bool_decide (is_Some (user_profiles s !! session_id))).

(** [self.user_profiles[session_id]], which raises on a missing key. *)
Definition getitem (session_id : string) : M Profile :=
  fun s =>
    match user_profiles s !! session_id with
    | Some p => (Return p, s)
    | None => (Raise (KeyError session_id), s)
    end.

(** [self.user_profiles[session_id] = p]. *)
Definition setitem (session_id : string) (p : Profile) : M unit :=
  modify (fun s => with_user_profiles (<[session_id := p]> (user_profiles s)) s).

(** [self.user_profiles[session_id][field] = v]: the lookup can raise. *)
Definition update_item (session_id : string) (f : Profile -> Profile) : M unit :=
  p ← getitem session_id;
  setitem session_id (f p).

Definition print (line : string) : M unit :=
  modify (fun s => with_stdout (stdout s ++ [line]) s).

(** [self.llm.invoke(prompt).content]. *)
Definition llm_invoke (llm : ChatOpenAI) (prompt : string) : M string :=
  match invoke llm prompt with
  | Some text => ret text
  | None => raise UpstreamError
  end.

(** [self.conversation.predict(input=...)]: the chain reads the history from
    [session_memory], asks the model, saves the exchange in [session_memory]
    and returns the answer. A failing model call saves nothing. *)
Definition conversation_predict (llm : ChatOpenAI) (text : string) : M string :=
  history ← gets (fun s => messages (session_memory s));
  match complete llm history text with
  | Some response =>
      modify (fun s =>
        with_session_memory
          (window_save_context (session_memory s)
             {| input := text; output := response |}) s);;
      ret response
  | None => raise UpstreamError
  end.

(** *** start_session, get_user_profile, update_user_preference *)

Definition empty_profile (user_name : option string) : Profile :=
  {| name := user_name; preferences := []; conversation_history := [] |}.

Definition greeting (session_id : string) (user_name : option string) : string :=
  "Session " +:+ session_id +:+ " started. Hello"
    +:+ (if truthy user_name then " " +:+ str_of user_name else "") +:+ "!".

Definition start_session (session_id : string) (user_name : option string)
  : M string :=
  modify (with_current_session_id (Some session_id));;
  modify (with_message_count 0);;
  when (truthy user_name)
    (present ← contains session_id;
     if negb present
     then setitem session_id (empty_profile user_name)
     else update_item session_id (set_name user_name));;
  mret (greeting session_id user_name).

Definition get_user_profile (session_id : string) : M (option Profile) :=
  gets (fun s => user_profiles s !! session_id).

Definition update_user_preference (session_id key value : string) : M unit :=
  present ← contains session_id;
  when (negb present) (setitem session_id (empty_profile None));;
  update_item session_id
    (fun p => set_preferences (dict_set (preferences p) key value) p).

(** *** _should_summarize, _summarize_conversation *)

Definition _should_summarize : M bool :=
  gets (fun s => Nat.ltb 10 (message_count s)).

Definition speaker (i : nat) : string :=
  if Nat.eqb (i mod 2) 0 then "Human" else "Assistant".

Definition conversation_text (history : list BaseMessage) : string :=
  String.concat nl (imap (fun i msg => speaker i +:+ ": " +:+ content msg) history).

Definition indent : string := "            ".

Definition summary_prompt (history : list BaseMessage) : string :=
  nl +:+ indent
     +:+ "Please summarize the following conversation in 2-3 sentences, "
     +:+ nl +:+ indent
     +:+ "focusing on key topics, decisions, and important information:"
     +:+ nl +:+ indent
     +:+ nl +:+ indent +:+ conversation_text history
     +:+ nl +:+ indent.

Definition summary_entry (summary : string) : Exchange :=
  {| input := "Conversation Summary"; output := summary |}.

Definition _summarize_conversation (llm : ChatOpenAI) : M (option string) :=
  count ← gets message_count;
  if Nat.ltb 10 count then
    history ← gets (fun s => messages (session_memory s));
    summary ← llm_invoke llm (summary_prompt history);
    modify (fun s => with_session_memory (window_clear (session_memory s)) s);;
    modify (fun s =>
      with_summary_memory
        (summary_save_context (summary_memory s) (summary_entry summary)) s);;
    modify (with_message_count 0);;
    mret (Some summary)
  else mret None.

(** *** chat *)

Definition no_active_session : Exception :=
  ValueError "No active session. Please start a session first.".

Definition render_preferences (d : list (string * string)) : string :=
  String.concat ", " (map (fun kv => fst kv +:+ ": " +:+ snd kv) d).

(** The prefix [chat] builds from a profile. *)
Definition context_of_profile (profile : Profile) : string :=
  (if truthy (name profile)
   then "User's name: " +:+ str_of (name profile) +:+ ". " else "")
  +:+
  (if negb (Nat.eqb (length (preferences profile)) 0)
   then "User preferences: " +:+ render_preferences (preferences profile) +:+ ". "
   else "").

Definition profile_context (session_id : string) : M string :=
  present ← contains session_id;
  if (present : bool) then
    profile ← getitem session_id;
    mret (context_of_profile profile)
  else mret "".

Definition enhanced_message (context message : string) : string :=
  if truthy_str context then context +:+ message else message.

(** [session_id and session_id != self.current_session_id]. *)
Definition switches (session_id current : option string) : bool :=
  truthy session_id && negb (bool_decide (session_id = current)).

Definition chat (llm : ChatOpenAI) (message : string) (session_id : option string)
  : M string :=
  current ← gets current_session_id;
  when (switches session_id current)
    (start_session (str_of session_id) None;; mret tt);;
  current ← gets current_session_id;
  if negb (truthy current) then raise no_active_session else
  let active := str_of current in
  modify (fun s => with_message_count (message_count s + 1) s);;
  due ← _should_summarize;
  when due
    (summary ← _summarize_conversation llm;
     when (truthy summary)
       (print ("[System] Conversation summarized: " +:+ str_of summary)));;
  context ← profile_context active;
  response ← conversation_predict llm (enhanced_message context message);
  present ← contains active;
  when present
    (update_item active
       (fun p => set_conversation_history
                   (conversation_history p
                      ++ [ {| user := message; assistant := response |} ]) p));;
  mret response.

(** *** get_conversation_history, clear_memory, get_session_info *)

Definition get_conversation_history (session_id : option string)
  : M (list HistoryEntry) :=
  current ← gets current_session_id;
  let target_session := py_or session_id current in
  if truthy target_session then
    present ← contains (str_of target_session);
    if (present : bool) then
      profile ← getitem (str_of target_session);
      mret (conversation_history profile)
    else mret []
  else mret [].

Definition clear_memory (session_id : option string) : M unit :=
  current ← gets current_session_id;
  let target_session := py_or session_id current in
  when (truthy target_session)
    (modify (fun s => with_session_memory (window_clear (session_memory s)) s);;
     modify (fun s => with_summary_memory (summary_clear (summary_memory s)) s);;
     present ← contains (str_of target_session);
     when present
       (update_item (str_of target_session) (set_conversation_history []));;
     modify (with_message_count 0)).

Record SessionInfo := {
  info_session_id : string;
  info_message_count : nat;
  info_user_name : option string;
  info_preferences : list (string * string);
  info_history_length : nat;
  info_memory_buffer_size : nat
}.

(** The result is the dictionary with the ["error"] key (left) or the
    snapshot (right). *)
Definition get_session_info (session_id : option string)
  : M (string + SessionInfo) :=
  current ← gets current_session_id;
  let target_session := py_or session_id current in
  if negb (truthy target_session) then mret (inl "No active session") else
  profile ← gets (fun s => user_profiles s !! str_of target_session);
  count ← gets message_count;
  size ← gets (fun s => length (messages (session_memory s)));
  mret (inr {| info_session_id := str_of target_session;
               info_message_count := count;
               info_user_name := profile ≫= name;
               info_preferences := default [] (preferences <$> profile);
               info_history_length :=
                 default 0 (length ∘ conversation_history <$> profile);
               info_memory_buffer_size := size |}).

(** ** Runs of method calls *)

(** One call from outside; the caller catches what it raises, as the loop of
    main.py does. *)
Inductive Call :=
| StartSession (session_id : string) (user_name : option string)
| GetUserProfile (session_id : string)
| UpdateUserPreference (session_id key value : string)
| Chat (llm : ChatOpenAI) (message : string) (session_id : option string)
| GetConversationHistory (session_id : option string)
| ClearMemory (session_id : option string)
| GetSessionInfo (session_id : option string).

(** The attributes a call leaves behind. *)
Definition exec (c : Call) (s : StatefulChatbot) : StatefulChatbot :=
  match c with
  | StartSession session_id user_name => snd (start_session session_id user_name s)
  | GetUserProfile session_id => snd (get_user_profile session_id s)
  | UpdateUserPreference session_id key value =>
      snd (update_user_preference session_id key value s)
  | Chat llm message session_id => snd (chat llm message session_id s)
  | GetConversationHistory session_id => snd (get_conversation_history session_id s)
  | ClearMemory session_id => snd (clear_memory session_id s)
  | GetSessionInfo session_id => snd (get_session_info session_id s)
  end.

Definition run (calls : list Call) (s : StatefulChatbot) : StatefulChatbot :=
  fold_left (fun st c => exec c st) calls s.

(** A model that answers every request with the same text. *)
Definition constant_llm (text : string) : ChatOpenAI :=
  {| invoke := fun _ => Some text; complete := fun _ _ => Some text |}.

(** ** Closed descriptions

    The attributes each method leaves, written without the monad, the
    predicates on calls that the statements use, and the states of a few
    concrete runs. *)

(** The attributes after [start_session]. *)
Definition started (session_id : string) (user_name : option string)
    (s : StatefulChatbot) : StatefulChatbot :=
  let s' := with_message_count 0 (with_current_session_id (Some session_id) s) in
  if truthy user_name then
    with_user_profiles
      (<[session_id :=
           match user_profiles s !! session_id with
           | Some p => set_name user_name p
           | None => empty_profile user_name
           end]> (user_profiles s)) s'
  else s'.

(** The attributes after a summarization that got [summary] from the model. *)
Definition summarized (summary : string) (s : StatefulChatbot) : StatefulChatbot :=
  with_message_count 0
    (with_summary_memory (summary_memory s ++ [summary_entry summary])
       (with_session_memory [] s)).

(** The attributes after the first statement of [chat]. *)
Definition switched (session_id : option string) (s : StatefulChatbot) :=
  if switches session_id (current_session_id s)
  then started (str_of session_id) None s else s.

(** [self.message_count += 1]. *)
Definition counted (s : StatefulChatbot) :=
  with_message_count (message_count s + 1) s.

(** The notice [chat] prints for a non-empty summary. *)
Definition noticed (summary : string) (s : StatefulChatbot) :=
  if truthy_str summary
  then with_stdout (stdout s ++ ["[System] Conversation summarized: " +:+ summary]) s
  else s.

(** The summarization step of [chat], run on the incremented counter. *)
Definition summarize_phase (llm : ChatOpenAI) (s : StatefulChatbot)
  : Result unit * StatefulChatbot :=
  if Nat.ltb 10 (message_count s) then
    match invoke llm (summary_prompt (messages (session_memory s))) with
    | Some summary => (Return tt, noticed summary (summarized summary s))
    | None => (Raise UpstreamError, s)
    end
  else (Return tt, s).

(** The prefix [chat] builds for the session [active]. *)
Definition context_at (active : string) (s : StatefulChatbot) : string :=
  match user_profiles s !! active with
  | Some p => context_of_profile p
  | None => ""
  end.

(** The buffer after the chain has saved an exchange. *)
Definition saved (text response : string) (s : StatefulChatbot) :=
  with_session_memory
    (window_save_context (session_memory s) {| input := text; output := response |}) s.

(** The profiles after [chat] has stored the exchange, if [active] has a
    profile. *)
Definition recorded (active message response : string) (s : StatefulChatbot) :=
  match user_profiles s !! active with
  | Some p =>
      with_user_profiles
        (<[active := set_conversation_history
                       (conversation_history p
                          ++ [ {| user := message; assistant := response |} ]) p]>
           (user_profiles s)) s
  | None => s
  end.

(** The attributes after [update_user_preference]. *)
Definition preferred (session_id key value : string) (s : StatefulChatbot) :=
  let p := default (empty_profile None) (user_profiles s !! session_id) in
  with_user_profiles
    (<[session_id := set_preferences (dict_set (preferences p) key value) p]>
       (user_profiles s)) s.

(** The session a method with an optional [session_id] works on. *)
Definition target_session (session_id : option string) (s : StatefulChatbot)
  : option string :=
  py_or session_id (current_session_id s).

(** What [get_conversation_history] returns for a target. *)
Definition history_of (target : option string) (s : StatefulChatbot)
  : list HistoryEntry :=
  if truthy target then
    match user_profiles s !! str_of target with
    | Some p => conversation_history p
    | None => []
    end
  else [].

(** The attributes after [clear_memory] on a target. *)
Definition cleared (target : option string) (s : StatefulChatbot) :=
  if truthy target then
    let s' := with_summary_memory [] (with_session_memory [] s) in
    with_message_count 0
      match user_profiles s !! str_of target with
      | Some p =>
          with_user_profiles
            (<[str_of target := set_conversation_history [] p]> (user_profiles s)) s'
      | None => s'
      end
  else s.

(** The attributes when the 22nd [chat] of a session reaches
    [_summarize_conversation]: the first summary was saved by the 11th. *)
Definition before_second_summary : StatefulChatbot :=
  counted (run (StartSession "s1" None
                  :: repeat (Chat (constant_llm "first") "hi" None) 21)
             new_chatbot).

(** A [chat] call that stays on the session [active]. *)
Definition chat_on (active : string) (c : Call) : Prop :=
  match c with
  | Chat _ _ session_id => session_id = None ∨ session_id = Some active
  | _ => False
  end.

(** The entry a successful [chat] appends to the active profile. *)
Definition with_exchange (message response : string) (p : Profile) : Profile :=
  set_conversation_history
    (conversation_history p ++ [ {| user := message; assistant := response |} ]) p.

(** The calls that can create the profile of [session_id]. *)
Definition creates (session_id : string) (c : Call) : bool :=
  match c with
  | StartSession sid user_name => bool_decide (sid = session_id) && truthy user_name
  | UpdateUserPreference sid _ _ => bool_decide (sid = session_id)
  | _ => false
  end.

(** The calls that name [session_id] in their session argument. *)
Definition refers_to (session_id : string) (c : Call) : Prop :=
  match c with
  | StartSession sid _ | GetUserProfile sid | UpdateUserPreference sid _ _ =>
      sid = session_id
  | Chat _ _ arg | GetConversationHistory arg | ClearMemory arg
  | GetSessionInfo arg => arg = Some session_id
  end.

(** A session with a name, a preference and three turns behind it. *)
Definition ann_after_three_turns : StatefulChatbot :=
  run (StartSession "s1" (Some "Ann")
         :: UpdateUserPreference "s1" "color" "blue"
         :: repeat (Chat (constant_llm "yo") "hi" None) 3)
    new_chatbot.

(** A profile under the empty id, with the empty id started after a turn of
    session ["s1"]. *)
Definition empty_id_with_profile : StatefulChatbot :=
  run [ StartSession "s1" None;
        Chat (constant_llm "yo") "hi" None;
        UpdateUserPreference "" "color" "blue";
        StartSession "" None ]
    new_chatbot.

(** One turn of the named session ["s1"]. *)
Definition ann_after_one_turn : StatefulChatbot :=
  run [ StartSession "s1" (Some "Ann"); Chat (constant_llm "yo") "hi" None ]
    new_chatbot.

(** ** The constructor *)

(** [os.getenv(key)] on the process environment. *)
Definition getenv (env : gmap string string) (key : string) : option string :=
  env !! key.

(** [os.getenv(key, fallback)]: the fallback is used for an unset variable
    only. *)
Definition getenv_default (env : gmap string string) (key fallback : string)
  : option string :=
  Some (default fallback (env !! key)).

(** The three attributes [__init__] resolves from its arguments and the
    environment. *)
Record Configuration := {
  api_key : option string;
  model_name : option string;
  base_url : option string
}.

Definition api_key_required : Exception :=
  ValueError "OpenAI API key is required. Set OPENAI_API_KEY environment variable.".

(** [__init__]: the resolved configuration and the fresh attributes, or the
    [ValueError] for a missing key. The model client and the two memories it
    builds hold no state beyond [new_chatbot]. *)
Definition __init__ (api_key model_name base_url : option string)
    (env : gmap string string) : Result (Configuration * StatefulChatbot) :=
  let key := py_or api_key (getenv env "OPENAI_API_KEY") in
  let model := py_or model_name (getenv_default env "MODEL_NAME" "gpt-3.5-turbo") in
  let url := py_or base_url (getenv env "BASE_URL") in
  if negb (truthy key)
  then Raise api_key_required
  else Return ({| api_key := key; model_name := model; base_url := url |},
               new_chatbot).

(** ** Reading a dictionary of preferences *)

(** [d.get(key)] on a dictionary of preferences. *)
Fixpoint dict_get (d : list (string * string)) (key : string) : option string :=
  match d with
  | [] => None
  | (k, v) :: rest => if String.eqb k key then Some v else dict_get rest key
  end.

(** The value stored for [key] in the preferences of [session_id], if the
    session has a profile and the profile has the key. *)
Definition preference_of (s : StatefulChatbot) (session_id key : string)
  : option string :=
  user_profiles s !! session_id ≫= fun p => dict_get (preferences p) key.

(** ** Predicates on models and runs *)

(** A model that answers every request. *)
Definition answers (llm : ChatOpenAI) : Prop :=
  (∀ prompt, is_Some (invoke llm prompt))
  ∧ (∀ history text, is_Some (complete llm history text)).

(** A call whose model, if it has one, answers every request. *)
Definition answered (c : Call) : Prop :=
  match c with
  | Chat llm _ _ => answers llm
  | _ => True
  end.

(** A call whose model, if it has one, answers every bare prompt. *)
Definition summary_given (c : Call) : Prop :=
  match c with
  | Chat llm _ _ => ∀ prompt, is_Some (invoke llm prompt)
  | _ => True
  end.

(** A [chat] on [active] whose model fails every bare prompt. *)
Definition summary_refused (active : string) (c : Call) : Prop :=
  match c with
  | Chat llm _ session_id =>
      (session_id = None ∨ session_id = Some active)
      ∧ ∀ prompt, invoke llm prompt = None
  | _ => False
  end.

(** The messages the [chat] calls of a run were given. *)
Definition sent (calls : list Call) : list string :=
  flat_map (fun c => match c with Chat _ message _ => [message] | _ => [] end) calls.

(** A run of [chat] calls, each naming a non-empty session id other than the
    one that is active when it is made. *)
Fixpoint alternating (current : option string) (calls : list Call) : Prop :=
  match calls with
  | [] => True
  | Chat _ _ (Some session_id) :: rest =>
      session_id ≠ "" ∧ Some session_id ≠ current
      ∧ alternating (Some session_id) rest
  | _ => False
  end.

(** The label a role should be printed with. *)
Definition label_of (r : Role) : string :=
  match r with
  | Human => "Human"
  | AI => "Assistant"
  end.

(** ** What each method computes

    Each method is shown equal to the closed description of its result and
    of the attributes it leaves. *)

Ltac unfold_m :=
  unfold mbind, M_bind, mret, M_ret, bind, ret, gets, modify, raise, when in *.

Lemma start_session_eq session_id user_name s :
  start_session session_id user_name s
  = (Return (greeting session_id user_name), started session_id user_name s).
Proof.
  unfold start_session, started, contains, setitem, update_item, getitem.
  unfold_m. simpl.
  destruct (truthy user_name); simpl; [|done].
  destruct (user_profiles s !! session_id) as [p|] eqn:E; simpl; rewrite ?E; done.
Qed.

Lemma summarize_conversation_eq llm s :
  _summarize_conversation llm s
  = if Nat.ltb 10 (message_count s) then
      match invoke llm (summary_prompt (messages (session_memory s))) with
      | Some summary => (Return (Some summary), summarized summary s)
      | None => (Raise UpstreamError, s)
      end
    else (Return None, s).
Proof.
  unfold _summarize_conversation, llm_invoke. unfold_m. simpl.
  destruct (Nat.ltb 10 (message_count s)); [|done].
  destruct (invoke llm _); done.
Qed.

Lemma chat_eq llm message session_id s :
  chat llm message session_id s =
  let s1 := switched session_id s in
  if negb (truthy (current_session_id s1)) then (Raise no_active_session, s1) else
  let active := str_of (current_session_id s1) in
  match summarize_phase llm (counted s1) with
  | (Raise e, s3) => (Raise e, s3)
  | (Return _, s3) =>
      let text := enhanced_message (context_at active s3) message in
      match complete llm (messages (session_memory s3)) text with
      | None => (Raise UpstreamError, s3)
      | Some response =>
          (Return response, recorded active message response (saved text response s3))
      end
  end.
Proof.
  unfold chat.
  unfold mbind at 1, M_bind at 1, bind at 1. unfold gets at 1.
  unfold mbind at 1, M_bind at 1, bind at 1.
  assert (Hsw : when (switches session_id (current_session_id s))
                  (start_session (str_of session_id) None;; mret tt) s
                = (Return tt, switched session_id s)).
  { unfold when, switched. destruct (switches _ _); [|done].
    unfold mbind, M_bind, bind. rewrite start_session_eq. done. }
  rewrite Hsw. clear Hsw. set (s1 := switched session_id s). simpl.
  unfold mbind at 1, M_bind at 1, bind at 1. unfold gets at 1.
  destruct (truthy (current_session_id s1)); simpl; [|done].
  unfold mbind at 1, M_bind at 1, bind at 1. unfold modify at 1.
  fold (counted s1). set (s2 := counted s1).
  unfold mbind at 1, M_bind at 1, bind at 1. unfold _should_summarize at 1, gets at 1.
  unfold mbind at 1, M_bind at 1, bind at 1.
  assert (Hsum : when (Nat.ltb 10 (message_count s2))
                    (summary ← _summarize_conversation llm;
                     when (truthy summary)
                       (print ("[System] Conversation summarized: " +:+ str_of summary))) s2
                 = summarize_phase llm s2).
  { unfold mbind, M_bind, bind, summarize_phase, when.
    destruct (Nat.ltb 10 (message_count s2)) eqn:E; [|done].
    rewrite summarize_conversation_eq, E.
    destruct (invoke llm _) as [summary|]; [|done].
    unfold noticed. simpl. destruct (truthy_str summary); reflexivity. }
  rewrite Hsum. clear Hsum.
  destruct (summarize_phase llm s2) as [[[]|e] s3]; [|done].
  unfold mbind at 1, M_bind at 1, bind at 1.
  assert (Hctx : profile_context (str_of (current_session_id s1)) s3
                 = (Return (context_at (str_of (current_session_id s1)) s3), s3)).
  { unfold profile_context, context_at, contains, getitem. unfold_m. simpl.
    destruct (user_profiles s3 !! _) eqn:E; simpl; rewrite ?E; reflexivity. }
  rewrite Hctx. clear Hctx.
  unfold mbind at 1, M_bind at 1, bind at 1.
  unfold conversation_predict at 1. unfold_m. simpl.
  destruct (complete llm _ _) as [response|]; [|done]. simpl.
  unfold recorded, saved, update_item, getitem, setitem, contains. unfold_m. simpl.
  destruct (user_profiles s3 !! _) as [p|] eqn:E; simpl; rewrite ?E; done.
Qed.

Lemma update_user_preference_eq session_id key value s :
  update_user_preference session_id key value s
  = (Return tt, preferred session_id key value s).
Proof.
  unfold update_user_preference, preferred, contains, update_item, getitem, setitem.
  unfold_m. simpl.
  destruct (user_profiles s !! session_id) as [p|] eqn:E; simpl.
  - rewrite E. reflexivity.
  - rewrite lookup_insert_eq. unfold with_user_profiles. simpl.
    rewrite insert_insert_eq. reflexivity.
Qed.

Lemma get_conversation_history_eq session_id s :
  get_conversation_history session_id s
  = (Return (history_of (target_session session_id s) s), s).
Proof.
  unfold get_conversation_history, history_of, target_session, contains, getitem.
  unfold_m. simpl.
  destruct (truthy (py_or session_id (current_session_id s))); [|reflexivity].
  destruct (user_profiles s !! _) eqn:E; simpl; rewrite ?E; reflexivity.
Qed.

Lemma clear_memory_eq session_id s :
  clear_memory session_id s
  = (Return tt, cleared (target_session session_id s) s).
Proof.
  unfold clear_memory, cleared, target_session, contains, update_item, getitem, setitem.
  unfold_m. simpl.
  destruct (truthy (py_or session_id (current_session_id s))); [|reflexivity].
  simpl.
  destruct (user_profiles s !! _) eqn:E; simpl; rewrite ?E; reflexivity.
Qed.

Lemma get_session_info_state session_id s :
  snd (get_session_info session_id s) = s.
Proof.
  unfold get_session_info. unfold_m. simpl.
  destruct (truthy (py_or session_id (current_session_id s))); reflexivity.
Qed.

(** ** Fields the phases of [chat] leave alone *)

Lemma recorded_frame active message response s :
  session_memory (recorded active message response s) = session_memory s
  ∧ summary_memory (recorded active message response s) = summary_memory s
  ∧ current_session_id (recorded active message response s) = current_session_id s
  ∧ message_count (recorded active message response s) = message_count s
  ∧ stdout (recorded active message response s) = stdout s.
Proof. unfold recorded. destruct (user_profiles s !! active); simpl; auto. Qed.

Lemma switched_same session_id s :
  switches session_id (current_session_id s) = false → switched session_id s = s.
Proof. unfold switched. intros ->. reflexivity. Qed.

Lemma switches_none current : switches None current = false.
Proof. reflexivity. Qed.

Lemma switches_current current : switches current current = false.
Proof.
  unfold switches. rewrite bool_decide_true by reflexivity.
  apply andb_false_r.
Qed.

Lemma truthy_str_true s : truthy_str s = true ↔ s ≠ "".
Proof.
  unfold truthy_str. rewrite negb_true_iff, String.eqb_neq. reflexivity.
Qed.

Lemma truthy_some s : s ≠ "" → truthy (Some s) = true.
Proof. intros H. apply truthy_str_true, H. Qed.

Lemma switches_other sid current :
  sid ≠ "" → Some sid ≠ current → switches (Some sid) current = true.
Proof.
  intros Hs Hne. unfold switches. rewrite truthy_some by done.
  rewrite bool_decide_false by done. reflexivity.
Qed.

(** ** start_session *)

Lemma start_session_session_memory session_id user_name s :
  session_memory (snd (start_session session_id user_name s)) = session_memory s.
Proof.
  rewrite start_session_eq. unfold started. simpl.
  destruct (truthy user_name); reflexivity.
Qed.

(** C9: [start_session] makes its argument the active session and resets
    [message_count] to 0, for every state, id and name, and it does not touch
    [session_memory]: what the buffer held stays in it. *)
Theorem start_session_keeps_buffer (s : StatefulChatbot) (session_id : string)
    (user_name : option string) :
  fst (start_session session_id user_name s) = Return (greeting session_id user_name)
  ∧ current_session_id (snd (start_session session_id user_name s)) = Some session_id
  ∧ message_count (snd (start_session session_id user_name s)) = 0
  ∧ session_memory (snd (start_session session_id user_name s)) = session_memory s
  ∧ summary_memory (snd (start_session session_id user_name s)) = summary_memory s.
Proof.
  rewrite start_session_eq. unfold started. simpl.
  destruct (truthy user_name); simpl; auto.
Qed.

(** ** chat with no active session *)

Lemma chat_inactive llm message session_id s :
  truthy (current_session_id s) = false →
  truthy session_id = false →
  chat llm message session_id s = (Raise no_active_session, s).
Proof.
  intros Hcur Harg. rewrite chat_eq. simpl.
  rewrite switched_same by (unfold switches; rewrite Harg; reflexivity).
  rewrite Hcur. reflexivity.
Qed.

Lemma started_current session_id user_name s :
  current_session_id (started session_id user_name s) = Some session_id.
Proof. unfold started. simpl. destruct (truthy user_name); reflexivity. Qed.

Lemma started_count session_id user_name s :
  message_count (started session_id user_name s) = 0.
Proof. unfold started. simpl. destruct (truthy user_name); reflexivity. Qed.

(** A [chat] on an active session whose counter stays at 10 or below reaches
    the model once, through the chain. *)
Lemma chat_active_below llm message session_id s :
  truthy (current_session_id s) = true →
  switches session_id (current_session_id s) = false →
  message_count s + 1 ≤ 10 →
  chat llm message session_id s =
  let active := str_of (current_session_id s) in
  let text := enhanced_message (context_at active s) message in
  match complete llm (messages (session_memory s)) text with
  | None => (Raise UpstreamError, counted s)
  | Some response =>
      (Return response, recorded active message response (saved text response (counted s)))
  end.
Proof.
  intros Hcur Hsw Hcount. rewrite chat_eq. simpl.
  rewrite switched_same by done. rewrite Hcur. simpl.
  unfold summarize_phase.
  replace (Nat.ltb 10 (message_count (counted s))) with false; [reflexivity|].
  symmetry. apply Nat.ltb_ge. simpl. lia.
Qed.

(** C5: with no active session and no [session_id] argument, [chat] raises
    the no-active-session [ValueError] and leaves every attribute as it was;
    once a session with a non-empty id is started, [chat] no longer raises it,
    and returns the model's answer when the model gives one. *)
Theorem chat_requires_session (llm : ChatOpenAI) (message : string)
    (s : StatefulChatbot) :
  truthy (current_session_id s) = false →
  chat llm message None s = (Raise no_active_session, s)
  ∧ ∀ (session_id : string) (user_name : option string),
      session_id ≠ "" →
      let s' := snd (start_session session_id user_name s) in
      fst (chat llm message None s') ≠ Raise no_active_session
      ∧ ∀ response,
          (∀ history text, complete llm history text = Some response) →
          fst (chat llm message None s') = Return response.
Proof.
  intros Hcur. split; [apply chat_inactive; done|].
  intros session_id user_name Hid s'. subst s'.
  rewrite start_session_eq. simpl.
  rewrite chat_active_below.
  - simpl. split.
    + destruct (complete llm _ _); simpl; discriminate.
    + intros response Hllm. rewrite Hllm. reflexivity.
  - rewrite started_current. apply truthy_some, Hid.
  - apply switches_none.
  - rewrite started_count. lia.
Qed.

Lemma chat_requires_session_witness :
  chat (constant_llm "yo") "hi" None new_chatbot = (Raise no_active_session, new_chatbot)
  ∧ fst (chat (constant_llm "yo") "hi" None
           (snd (start_session "s1" None new_chatbot))) = Return "yo".
Proof.
  destruct (chat_requires_session (constant_llm "yo") "hi" new_chatbot eq_refl)
    as [Hfail Hrecover].
  split; [exact Hfail|].
  destruct (Hrecover "s1" None ltac:(discriminate)) as [_ Hok].
  apply Hok. reflexivity.
Defined.

(** ** Summarization *)

(** C2, as amended: when [message_count] exceeds 10 and the model returns a
    summary, [_summarize_conversation] empties [session_memory], appends the
    new summary entry to [summary_memory], whose earlier entries stay, resets
    [message_count] to 0 and changes nothing else. *)
Theorem summarize_appends_summary (llm : ChatOpenAI) (s : StatefulChatbot)
    (summary : string) :
  10 < message_count s →
  invoke llm (summary_prompt (messages (session_memory s))) = Some summary →
  _summarize_conversation llm s
  = (Return (Some summary),
     {| session_memory := [];
        summary_memory := summary_memory s ++ [summary_entry summary];
        user_profiles := user_profiles s;
        current_session_id := current_session_id s;
        message_count := 0;
        stdout := stdout s |}).
Proof.
  intros Hcount Hllm. rewrite summarize_conversation_eq, Hllm.
  apply Nat.ltb_lt in Hcount. rewrite Hcount. reflexivity.
Qed.

Lemma summarize_appends_summary_witness :
  10 < message_count before_second_summary
  ∧ _summarize_conversation (constant_llm "second") before_second_summary
    = (Return (Some "second"),
       {| session_memory := [];
          summary_memory :=
            summary_memory before_second_summary ++ [summary_entry "second"];
          user_profiles := user_profiles before_second_summary;
          current_session_id := current_session_id before_second_summary;
          message_count := 0;
          stdout := stdout before_second_summary |}).
Proof.
  assert (Hcount : 10 < message_count before_second_summary)
    by (vm_compute; lia).
  split; [exact Hcount|].
  apply (summarize_appends_summary (constant_llm "second") before_second_summary
           "second" Hcount).
  reflexivity.
Defined.

(** C2 as stated fails: the second summarization of a session leaves two
    entries in [summary_memory], not only the new one. *)
Lemma summary_memory_not_emptied :
  ¬ (10 < message_count before_second_summary →
     ∀ summary s',
       _summarize_conversation (constant_llm "second") before_second_summary
       = (Return (Some summary), s') →
       session_memory s' = []
       ∧ summary_memory s' = [summary_entry summary]
       ∧ message_count s' = 0).
Proof.
  intros H.
  assert (Hcount : 10 < message_count before_second_summary) by (vm_compute; lia).
  destruct (H Hcount "second"
              (snd (_summarize_conversation (constant_llm "second")
                      before_second_summary)))
    as (_ & Hsum & _).
  - vm_compute. reflexivity.
  - vm_compute in Hsum. discriminate Hsum.
Qed.

(** ** The turn counter over a run of [chat] calls *)

Lemma switches_stay active session_id :
  session_id = None ∨ session_id = Some active →
  switches session_id (Some active) = false.
Proof. intros [->| ->]; [apply switches_none|apply switches_current]. Qed.

Lemma chat_below_fields llm message session_id s :
  truthy (current_session_id s) = true →
  switches session_id (current_session_id s) = false →
  message_count s + 1 ≤ 10 →
  let s' := snd (chat llm message session_id s) in
  current_session_id s' = current_session_id s
  ∧ message_count s' = message_count s + 1
  ∧ summary_memory s' = summary_memory s
  ∧ stdout s' = stdout s.
Proof.
  intros Hcur Hsw Hcount. rewrite chat_active_below by done. simpl.
  destruct (complete llm _ _) as [response|]; simpl; [|auto].
  destruct (recorded_frame (str_of (current_session_id s)) message response
              (saved (enhanced_message (context_at (str_of (current_session_id s)) s)
                        message) response (counted s)))
    as (_ & -> & -> & -> & ->).
  simpl. auto.
Qed.

Lemma chat_summarizing_fields llm message session_id s summary :
  truthy (current_session_id s) = true →
  switches session_id (current_session_id s) = false →
  10 < message_count s + 1 →
  invoke llm (summary_prompt (messages (session_memory s))) = Some summary →
  let s' := snd (chat llm message session_id s) in
  current_session_id s' = current_session_id s
  ∧ message_count s' = 0
  ∧ summary_memory s' = summary_memory s ++ [summary_entry summary].
Proof.
  intros Hcur Hsw Hcount Hllm. rewrite chat_eq. simpl.
  rewrite switched_same by done. rewrite Hcur. simpl.
  unfold summarize_phase. simpl.
  replace (Nat.ltb 10 (message_count s + 1)) with true
    by (symmetry; apply Nat.ltb_lt; exact Hcount).
  rewrite Hllm.
  set (s3 := noticed summary (summarized summary (counted s))).
  assert (H3 : current_session_id s3 = current_session_id s
               ∧ message_count s3 = 0
               ∧ summary_memory s3 = summary_memory s ++ [summary_entry summary]).
  { unfold s3, noticed. destruct (truthy_str summary); simpl; auto. }
  destruct (complete llm _ _) as [response|]; simpl; [|exact H3].
  match goal with
  | |- context [recorded ?a ?m ?r ?st] =>
      destruct (recorded_frame a m r st) as (_ & -> & -> & -> & _)
  end.
  simpl. exact H3.
Qed.

Lemma run_cons c calls s : run (c :: calls) s = run calls (exec c s).
Proof. reflexivity. Qed.

Lemma run_below_threshold active calls : ∀ s,
  current_session_id s = Some active →
  active ≠ "" →
  Forall (chat_on active) calls →
  message_count s + length calls ≤ 10 →
  current_session_id (run calls s) = Some active
  ∧ message_count (run calls s) = message_count s + length calls
  ∧ summary_memory (run calls s) = summary_memory s
  ∧ stdout (run calls s) = stdout s.
Proof.
  induction calls as [|c calls IH]; intros s Hcur Hid Hall Hcount.
  - simpl. rewrite Nat.add_0_r. auto.
  - rewrite run_cons. inversion Hall as [|? ? Hc Hrest]; subst.
    destruct c as [| | |llm message session_id| | |]; simpl in Hc; try contradiction.
    simpl in Hcount. simpl exec.
    destruct (chat_below_fields llm message session_id s) as (Hc1 & Hc2 & Hc3 & Hc4).
    + rewrite Hcur. apply truthy_some, Hid.
    + rewrite Hcur. apply switches_stay, Hc.
    + lia.
    + destruct (IH (snd (chat llm message session_id s))) as (H1 & H2 & H3 & H4).
      * rewrite Hc1. exact Hcur.
      * exact Hid.
      * exact Hrest.
      * rewrite Hc2. lia.
      * rewrite H1, H2, H3, H4, Hc2, Hc3, Hc4. simpl length.
        repeat split; lia.
Qed.

(** C1: [_should_summarize] answers true exactly when [message_count] is
    above 10 and changes nothing. In a run of [chat] calls on one active
    session that starts with the counter at 0, the first ten calls save no
    summary and leave the counter at the number of calls made; the eleventh
    saves one summary and leaves the counter at 0. *)
Theorem summarize_on_eleventh_chat :
  (∀ s, snd (_should_summarize s) = s
        ∧ (fst (_should_summarize s) = Return true ↔ 10 < message_count s))
  ∧ ∀ (active : string) (s : StatefulChatbot) (calls : list Call),
      current_session_id s = Some active →
      active ≠ "" →
      message_count s = 0 →
      Forall (chat_on active) calls →
      length calls ≤ 10 →
      message_count (run calls s) = length calls
      ∧ summary_memory (run calls s) = summary_memory s
      ∧ (length calls = 10 →
         ∀ llm message session_id summary,
           session_id = None ∨ session_id = Some active →
           invoke llm (summary_prompt (messages (session_memory (run calls s))))
           = Some summary →
           message_count (snd (chat llm message session_id (run calls s))) = 0
           ∧ summary_memory (snd (chat llm message session_id (run calls s)))
             = summary_memory s ++ [summary_entry summary]).
Proof.
  split.
  - intros s. split; [reflexivity|].
    unfold _should_summarize, gets. simpl. split.
    + intros H. injection H as H. apply Nat.ltb_lt, H.
    + intros H. apply Nat.ltb_lt in H. rewrite H. reflexivity.
  - intros active s calls Hcur Hid Hzero Hall Hlen.
    destruct (run_below_threshold active calls s Hcur Hid Hall) as (H1 & H2 & H3 & _).
    { lia. }
    rewrite H2, H3, Hzero. split; [reflexivity|split; [reflexivity|]].
    intros Hten llm message session_id summary Harg Hllm.
    destruct (chat_summarizing_fields llm message session_id (run calls s) summary)
      as (_ & Hc & Hs).
    + rewrite H1. apply truthy_some, Hid.
    + rewrite H1. apply switches_stay, Harg.
    + rewrite H2. lia.
    + exact Hllm.
    + rewrite Hc, Hs, H3. auto.
Qed.

Lemma summarize_on_eleventh_chat_witness :
  message_count
    (run (repeat (Chat (constant_llm "yo") "hi" None) 10)
       (snd (start_session "s1" None new_chatbot))) = 10
  ∧ message_count
      (snd (chat (constant_llm "yo") "hi" None
              (run (repeat (Chat (constant_llm "yo") "hi" None) 10)
                 (snd (start_session "s1" None new_chatbot))))) = 0.
Proof.
  destruct summarize_on_eleventh_chat as [_ H].
  destruct (H "s1" (snd (start_session "s1" None new_chatbot))
              (repeat (Chat (constant_llm "yo") "hi" None) 10))
    as (Hcount & _ & Heleventh).
  - reflexivity.
  - discriminate.
  - reflexivity.
  - simpl. repeat (constructor; [left; reflexivity|]). constructor.
  - simpl. lia.
  - split; [exact Hcount|].
    destruct (Heleventh eq_refl (constant_llm "yo") "hi" None "yo") as [Hzero _].
    + left. reflexivity.
    + reflexivity.
    + exact Hzero.
Defined.

(** ** What [chat] does to the profiles and to the buffer *)

Lemma switched_frame session_id s :
  user_profiles (switched session_id s) = user_profiles s
  ∧ session_memory (switched session_id s) = session_memory s
  ∧ summary_memory (switched session_id s) = summary_memory s
  ∧ stdout (switched session_id s) = stdout s.
Proof. unfold switched. destruct (switches _ _); simpl; auto. Qed.

Lemma summarize_phase_frame llm s :
  user_profiles (snd (summarize_phase llm s)) = user_profiles s
  ∧ current_session_id (snd (summarize_phase llm s)) = current_session_id s
  ∧ (session_memory (snd (summarize_phase llm s)) = session_memory s
     ∨ session_memory (snd (summarize_phase llm s)) = [])
  ∧ (fst (summarize_phase llm s) = Return tt
     ∨ fst (summarize_phase llm s) = Raise UpstreamError).
Proof.
  unfold summarize_phase.
  destruct (Nat.ltb 10 (message_count s)); simpl; [|auto].
  destruct (invoke llm _) as [summary|]; simpl; [|auto].
  unfold noticed. destruct (truthy_str summary); simpl; auto.
Qed.

Lemma enhanced_message_prefix context message :
  ∃ prefix, enhanced_message context message = prefix +:+ message.
Proof.
  unfold enhanced_message. destruct (truthy_str context).
  - exists context. reflexivity.
  - exists "". reflexivity.
Qed.

(** Every outcome of [chat], with [active] the session after the switch. *)
Lemma chat_outcome llm message session_id s :
  let current := current_session_id (switched session_id s) in
  let active := str_of current in
  current_session_id (snd (chat llm message session_id s)) = current
  ∧ ((fst (chat llm message session_id s) = Raise no_active_session
      ∧ truthy current = false
      ∧ snd (chat llm message session_id s) = switched session_id s)
     ∨ (fst (chat llm message session_id s) = Raise UpstreamError
        ∧ truthy current = true
        ∧ user_profiles (snd (chat llm message session_id s)) = user_profiles s
        ∧ (session_memory (snd (chat llm message session_id s)) = session_memory s
           ∨ session_memory (snd (chat llm message session_id s)) = []))
     ∨ (∃ response history prefix,
          fst (chat llm message session_id s) = Return response
          ∧ truthy current = true
          ∧ complete llm history (prefix +:+ message) = Some response
          ∧ user_profiles (snd (chat llm message session_id s))
            = match user_profiles s !! active with
              | Some p => <[active := with_exchange message response p]> (user_profiles s)
              | None => user_profiles s
              end
          ∧ ∃ e, session_memory (snd (chat llm message session_id s))
                 = window_save_context (session_memory s) e
                 ∨ session_memory (snd (chat llm message session_id s))
                   = window_save_context [] e)).
Proof.
  intros current active. rewrite chat_eq. cbv zeta. fold current. fold active.
  destruct (switched_frame session_id s) as (Hp1 & Hm1 & _ & _).
  destruct (truthy current) eqn:Hcur; simpl.
  2: { split; [reflexivity|]. left. auto. }
  destruct (summarize_phase_frame llm (counted (switched session_id s)))
    as (Hp3 & Hc3 & Hm3 & Hr3).
  destruct (summarize_phase llm (counted (switched session_id s))) as [r3 s3].
  simpl in Hp3, Hc3, Hm3, Hr3. rewrite Hp1 in Hp3. rewrite Hm1 in Hm3.
  fold current in Hc3.
  destruct Hr3 as [-> | ->].
  2: { split; [exact Hc3|]. right. left. auto. }
  destruct (complete llm (messages (session_memory s3))
              (enhanced_message (context_at active s3) message))
    as [response|] eqn:Hllm.
  2: { split; [exact Hc3|]. right. left. auto. }
  match goal with
  | |- context [recorded ?a ?m ?r ?st] =>
      destruct (recorded_frame a m r st) as (Hrm & _ & Hrc & _ & _)
  end.
  unfold snd at 1. rewrite Hrc. split; [exact Hc3|].
  right. right.
  destruct (enhanced_message_prefix (context_at active s3) message) as [prefix Hpre].
  exists response, (messages (session_memory s3)), prefix.
  split; [reflexivity|]. split; [reflexivity|].
  split; [rewrite <- Hpre; exact Hllm|].
  split.
  - unfold snd, recorded, saved. simpl. rewrite Hp3.
    destruct (user_profiles s !! active); simpl; rewrite ?Hp3; reflexivity.
  - eexists. unfold snd. rewrite Hrm. unfold saved. simpl.
    destruct Hm3 as [-> | ->]; [left|right]; reflexivity.
Qed.

(** ** Profiles over runs *)

Lemma creates_refers session_id c :
  ¬ refers_to session_id c → creates session_id c = false.
Proof.
  destruct c; simpl; try reflexivity; intros H;
    rewrite bool_decide_false by exact H; reflexivity.
Qed.

Lemma cleared_lookup target s session_id :
  user_profiles (cleared target s) !! session_id
  = if truthy target && bool_decide (str_of target = session_id)
    then set_conversation_history [] <$> user_profiles s !! session_id
    else user_profiles s !! session_id.
Proof.
  unfold cleared. destruct (truthy target); simpl; [|reflexivity].
  case_bool_decide as Heq.
  - subst session_id.
    destruct (user_profiles s !! str_of target) as [p|] eqn:E; simpl.
    + rewrite lookup_insert_eq. reflexivity.
    + rewrite E. reflexivity.
  - destruct (user_profiles s !! str_of target) as [p|] eqn:E; simpl.
    + rewrite lookup_insert_ne by exact Heq. reflexivity.
    + reflexivity.
Qed.

(** A call leaves a profile in place, and creates one only as [creates]
    says. *)
Lemma exec_profile c s session_id :
  (is_Some (user_profiles s !! session_id) →
   is_Some (user_profiles (exec c s) !! session_id))
  ∧ (user_profiles s !! session_id = None →
     creates session_id c = false →
     user_profiles (exec c s) !! session_id = None).
Proof.
  destruct c as [sid user_name|sid|sid key value|llm message arg|arg|arg|arg];
    simpl exec.
  - rewrite start_session_eq. unfold started. simpl.
    destruct (truthy user_name) eqn:Hn; simpl; [|auto].
    destruct (decide (sid = session_id)) as [->|Hne].
    + rewrite lookup_insert_eq. split; [eauto|].
      intros _ Hc. rewrite bool_decide_true in Hc by reflexivity. discriminate Hc.
    + rewrite lookup_insert_ne by exact Hne. auto.
  - simpl. auto.
  - rewrite update_user_preference_eq. unfold preferred. simpl.
    destruct (decide (sid = session_id)) as [->|Hne].
    + rewrite lookup_insert_eq. split; [eauto|].
      intros _ Hc. rewrite bool_decide_true in Hc by reflexivity. discriminate Hc.
    + rewrite lookup_insert_ne by exact Hne. auto.
  - destruct (chat_outcome llm message arg s) as (_ & [H|[H|H]]).
    + destruct H as (_ & _ & ->).
      destruct (switched_frame arg s) as (-> & _). auto.
    + destruct H as (_ & _ & -> & _). auto.
    + destruct H as (response & history & prefix & _ & _ & _ & -> & _).
      set (active := str_of (current_session_id (switched arg s))).
      destruct (user_profiles s !! active) as [p|] eqn:E; [|auto].
      destruct (decide (active = session_id)) as [Heq|Hne].
      * rewrite Heq in E |- *. rewrite lookup_insert_eq, E. split; [eauto|discriminate].
      * rewrite lookup_insert_ne by exact Hne. auto.
  - rewrite get_conversation_history_eq. simpl. auto.
  - rewrite clear_memory_eq. simpl. rewrite cleared_lookup.
    destruct (_ && _); [|auto].
    destruct (user_profiles s !! session_id); simpl; [split; [eauto|discriminate]|auto].
  - rewrite get_session_info_state. auto.
Qed.

Lemma run_profile_present calls : ∀ s session_id,
  is_Some (user_profiles s !! session_id) →
  is_Some (user_profiles (run calls s) !! session_id).
Proof.
  induction calls as [|c calls IH]; intros s session_id H; [exact H|].
  rewrite run_cons. apply IH, exec_profile, H.
Qed.

Lemma run_profile_absent calls : ∀ s session_id,
  user_profiles s !! session_id = None →
  Forall (fun c => creates session_id c = false) calls →
  user_profiles (run calls s) !! session_id = None.
Proof.
  induction calls as [|c calls IH]; intros s session_id H Hall; [exact H|].
  rewrite run_cons. inversion Hall; subst.
  apply IH; [apply exec_profile; assumption|assumption].
Qed.

Lemma never_referred_absent calls session_id :
  Forall (fun c => ¬ refers_to session_id c) calls →
  user_profiles (run calls new_chatbot) !! session_id = None.
Proof.
  intros Hall. apply run_profile_absent; [apply lookup_empty|].
  eapply Forall_impl; [exact Hall|]. intros c. apply creates_refers.
Qed.

(** C3, as amended: [get_user_profile] returns [None] for a session id that
    no call has named; it returns a profile after a preference update for the
    id and after a [start_session] for the id with a non-empty user name, and
    keeps returning one whatever is called later; a [start_session] without
    a user name creates no profile. *)
Theorem profile_present_after_update_or_named_start :
  (∀ calls session_id,
     Forall (fun c => ¬ refers_to session_id c) calls →
     fst (get_user_profile session_id (run calls new_chatbot)) = Return None)
  ∧ (∀ s session_id key value calls,
       ∃ p, fst (get_user_profile session_id
                   (run calls (snd (update_user_preference session_id key value s))))
            = Return (Some p))
  ∧ (∀ s session_id user_name calls,
       user_name ≠ "" →
       ∃ p, fst (get_user_profile session_id
                   (run calls (snd (start_session session_id (Some user_name) s))))
            = Return (Some p))
  ∧ (∀ s session_id user_name other,
       truthy user_name = false →
       fst (get_user_profile other (snd (start_session session_id user_name s)))
       = fst (get_user_profile other s)).
Proof.
  repeat apply conj.
  - intros calls session_id Hall. unfold get_user_profile, gets. simpl.
    rewrite never_referred_absent by exact Hall. reflexivity.
  - intros s session_id key value calls. unfold get_user_profile, gets. simpl.
    destruct (run_profile_present calls
                (snd (update_user_preference session_id key value s)) session_id)
      as [p Hp].
    + rewrite update_user_preference_eq. unfold preferred. simpl.
      rewrite lookup_insert_eq. eauto.
    + exists p. rewrite Hp. reflexivity.
  - intros s session_id user_name calls Hname. unfold get_user_profile, gets. simpl.
    destruct (run_profile_present calls
                (snd (start_session session_id (Some user_name) s)) session_id)
      as [p Hp].
    + rewrite start_session_eq. unfold started. simpl.
      rewrite (proj2 (truthy_str_true user_name)) by exact Hname. simpl.
      rewrite lookup_insert_eq. eauto.
    + exists p. rewrite Hp. reflexivity.
  - intros s session_id user_name other Hname.
    rewrite start_session_eq. unfold started. rewrite Hname. reflexivity.
Qed.

Lemma profile_present_after_update_or_named_start_witness :
  fst (get_user_profile "s2"
         (run [StartSession "s1" (Some "Ann")] new_chatbot)) = Return None
  ∧ (∃ p, fst (get_user_profile "s1"
                 (run [] (snd (start_session "s1" (Some "Ann") new_chatbot))))
          = Return (Some p)).
Proof.
  destruct profile_present_after_update_or_named_start as (Hnever & _ & Hstart & _).
  split.
  - apply Hnever. repeat constructor. simpl. discriminate.
  - apply Hstart. discriminate.
Defined.

(** C3 as stated fails: after a [start_session] without a user name the new
    session has no profile. *)
Lemma start_without_name_creates_no_profile :
  ¬ ∃ p, fst (get_user_profile "s1" (snd (start_session "s1" None new_chatbot)))
         = Return (Some p).
Proof. intros [p H]. vm_compute in H. discriminate H. Qed.

(** ** The history a successful [chat] records *)

Lemma truthy_str_of current : truthy current = true → current = Some (str_of current).
Proof. destruct current; [reflexivity|discriminate]. Qed.

Lemma truthy_nonempty current : truthy current = true → str_of current ≠ "".
Proof. destruct current; simpl; [apply truthy_str_true|discriminate]. Qed.

(** C4, as amended: a [chat] that returns hands back the text the model
    answered to the prefixed message. When the active session has a profile,
    the message as the caller gave it and that answer are appended as one
    entry to the profile's history, which grows by one, and no other profile
    changes; when it has none nothing is recorded. *)
Theorem chat_records_exchange (llm : ChatOpenAI) (message : string)
    (session_id : option string) (s s' : StatefulChatbot) (response : string) :
  chat llm message session_id s = (Return response, s') →
  ∃ active,
    current_session_id s' = Some active
    ∧ active ≠ ""
    ∧ (∃ history prefix, complete llm history (prefix +:+ message) = Some response)
    ∧ (∀ p, user_profiles s !! active = Some p →
         user_profiles s' !! active
         = Some {| name := name p;
                   preferences := preferences p;
                   conversation_history :=
                     conversation_history p
                       ++ [ {| user := message; assistant := response |} ] |}
         ∧ get_conversation_history (Some active) s'
           = (Return (conversation_history p
                        ++ [ {| user := message; assistant := response |} ]), s')
         ∧ length (conversation_history p
                     ++ [ {| user := message; assistant := response |} ])
           = length (conversation_history p) + 1)
    ∧ (user_profiles s !! active = None → user_profiles s' = user_profiles s)
    ∧ (∀ other, other ≠ active →
         user_profiles s' !! other = user_profiles s !! other).
Proof.
  intros Hchat.
  destruct (chat_outcome llm message session_id s) as (Hcur & [H|[H|H]]);
    rewrite Hchat in *; simpl in *.
  - destruct H as (H & _). discriminate H.
  - destruct H as (H & _). discriminate H.
  - destruct H as (r & history & prefix & Hr & Htruthy & Hllm & Hprof & _).
    injection Hr as <-.
    set (active := str_of (current_session_id (switched session_id s))) in *.
    exists active.
    split; [rewrite Hcur; apply truthy_str_of, Htruthy|].
    split; [apply truthy_nonempty, Htruthy|].
    split; [eauto|].
    split; [|split].
    + intros p Hp. rewrite Hp in Hprof.
      assert (Hlook : user_profiles s' !! active = Some (with_exchange message response p)).
      { rewrite Hprof. apply lookup_insert_eq. }
      split; [exact Hlook|]. split.
      * rewrite get_conversation_history_eq.
        unfold target_session, py_or, history_of.
        rewrite !truthy_some by (apply truthy_nonempty, Htruthy).
        simpl str_of. rewrite Hlook. reflexivity.
      * rewrite length_app. reflexivity.
    + intros Hnone. rewrite Hnone in Hprof. exact Hprof.
    + intros other Hother. rewrite Hprof.
      destruct (user_profiles s !! active); [|reflexivity].
      apply lookup_insert_ne. congruence.
Qed.

Lemma chat_records_exchange_witness :
  ∃ active,
    current_session_id
      (snd (chat (constant_llm "yo") "hi" None
              (snd (start_session "s1" (Some "Ann") new_chatbot)))) = Some active
    ∧ active ≠ "".
Proof.
  destruct (chat_records_exchange (constant_llm "yo") "hi" None
              (snd (start_session "s1" (Some "Ann") new_chatbot))
              (snd (chat (constant_llm "yo") "hi" None
                      (snd (start_session "s1" (Some "Ann") new_chatbot))))
              "yo")
    as (active & Hcur & Hne & _).
  - vm_compute. reflexivity.
  - exists active. split; [exact Hcur|exact Hne].
Defined.

(** C4 as stated fails: on a session started without a name, which has no
    profile, a successful [chat] records nothing and the history read back
    stays empty. *)
Lemma chat_without_profile_records_nothing :
  ¬ (∀ before response s',
       fst (get_conversation_history (Some "s1")
              (snd (start_session "s1" None new_chatbot))) = Return before →
       chat (constant_llm "yo") "hi" None (snd (start_session "s1" None new_chatbot))
       = (Return response, s') →
       fst (get_conversation_history (Some "s1") s')
       = Return (before ++ [ {| user := "hi"; assistant := response |} ])).
Proof.
  intros H.
  specialize (H [] "yo"
                (snd (chat (constant_llm "yo") "hi" None
                        (snd (start_session "s1" None new_chatbot))))).
  assert (Hbefore : fst (get_conversation_history (Some "s1")
                           (snd (start_session "s1" None new_chatbot))) = Return [])
    by (vm_compute; reflexivity).
  assert (Hrun : chat (constant_llm "yo") "hi" None
                   (snd (start_session "s1" None new_chatbot))
                 = (Return "yo",
                    snd (chat (constant_llm "yo") "hi" None
                           (snd (start_session "s1" None new_chatbot)))))
    by (vm_compute; reflexivity).
  specialize (H Hbefore Hrun). vm_compute in H. discriminate H.
Qed.

(** ** chat with another session id *)

(** C7, as amended: a [chat] whose [session_id] argument is non-empty and
    differs from the active session makes that id the active session, does
    not raise the no-active-session error (it returns when the model answers,
    whether or not the session was started before), and leaves the stored
    name of every existing profile as it was. *)
Theorem chat_switches_session (llm : ChatOpenAI) (message session_id : string)
    (s : StatefulChatbot) :
  session_id ≠ "" →
  Some session_id ≠ current_session_id s →
  current_session_id (snd (chat llm message (Some session_id) s)) = Some session_id
  ∧ (∀ e, fst (chat llm message (Some session_id) s) = Raise e → e = UpstreamError)
  ∧ (∀ response,
       (∀ history text, complete llm history text = Some response) →
       fst (chat llm message (Some session_id) s) = Return response)
  ∧ (∀ other p,
       user_profiles s !! other = Some p →
       ∃ p', user_profiles (snd (chat llm message (Some session_id) s)) !! other
             = Some p'
             ∧ name p' = name p
             ∧ preferences p' = preferences p).
Proof.
  intros Hid Hne.
  assert (Hsw : switched (Some session_id) s = started session_id None s).
  { unfold switched. rewrite switches_other by done. reflexivity. }
  assert (Hbelow : chat llm message (Some session_id) s
                   = chat llm message None (started session_id None s)).
  { rewrite !chat_eq. cbv zeta. rewrite Hsw.
    rewrite (switched_same None) by apply switches_none. reflexivity. }
  rewrite Hbelow.
  rewrite chat_active_below;
    [|rewrite started_current; apply truthy_some, Hid
     |apply switches_none
     |rewrite started_count; lia].
  cbv zeta. rewrite started_current. simpl str_of.
  destruct (complete llm _ _) as [response|] eqn:Hllm.
  - match goal with
    | |- context [recorded ?a ?m ?r ?st] =>
        destruct (recorded_frame a m r st) as (_ & _ & Hrc & _ & _);
        set (final := recorded a m r st) in *
    end.
    simpl fst. simpl snd. split; [rewrite Hrc; reflexivity|].
    split; [intros e H; discriminate H|].
    split.
    + intros response' Hall. rewrite Hall in Hllm. congruence.
    + intros other p Hp. unfold final, recorded, saved. simpl.
      destruct (user_profiles s !! session_id) as [q|] eqn:Hq; simpl.
      * destruct (decide (session_id = other)) as [->|Hother].
        -- rewrite lookup_insert_eq. rewrite Hp in Hq. injection Hq as <-.
           eexists. split; [reflexivity|]. split; reflexivity.
        -- rewrite lookup_insert_ne by exact Hother. eauto.
      * eauto.
  - simpl. split; [reflexivity|].
    split; [intros e H; congruence|].
    split.
    + intros response Hall. rewrite Hall in Hllm. discriminate Hllm.
    + intros other p Hp. eauto.
Qed.

Lemma chat_switches_session_witness :
  current_session_id
    (snd (chat (constant_llm "yo") "hello" (Some "s2")
            (snd (start_session "s1" (Some "Ann") new_chatbot)))) = Some "s2"
  ∧ fst (chat (constant_llm "yo") "hello" (Some "s2")
           (snd (start_session "s1" (Some "Ann") new_chatbot))) = Return "yo".
Proof.
  destruct (chat_switches_session (constant_llm "yo") "hello" "s2"
              (snd (start_session "s1" (Some "Ann") new_chatbot)))
    as (Hcur & _ & Hok & _).
  - discriminate.
  - discriminate.
  - split; [exact Hcur|]. apply Hok. reflexivity.
Defined.

(** C7 as stated fails: an empty [session_id] argument differs from the
    active session ["s1"] and starts nothing; ["s1"] stays active. *)
Lemma chat_with_empty_id_does_not_switch :
  ¬ (Some "" ≠ current_session_id (snd (start_session "s1" (Some "Ann") new_chatbot)) →
     current_session_id
       (snd (chat (constant_llm "yo") "hello" (Some "")
               (snd (start_session "s1" (Some "Ann") new_chatbot)))) = Some "").
Proof.
  intros H. assert (Hne : Some "" ≠ current_session_id
                            (snd (start_session "s1" (Some "Ann") new_chatbot)))
    by (vm_compute; discriminate).
  specialize (H Hne). vm_compute in H. discriminate H.
Qed.

(** ** clear_memory *)

(** C8, as amended: for a non-empty session id that has a profile,
    [clear_memory] on it (named, or omitted while it is the active session)
    empties [session_memory], [summary_memory] and the profile's history and
    resets [message_count] to 0; the profile keeps its name and preferences,
    and nothing else changes. *)
Theorem clear_memory_keeps_profile (s : StatefulChatbot) (session_id : string)
    (p : Profile) :
  session_id ≠ "" →
  user_profiles s !! session_id = Some p →
  let cleared_state :=
    {| session_memory := [];
       summary_memory := [];
       user_profiles :=
         <[session_id := {| name := name p;
                            preferences := preferences p;
                            conversation_history := [] |}]> (user_profiles s);
       current_session_id := current_session_id s;
       message_count := 0;
       stdout := stdout s |} in
  clear_memory (Some session_id) s = (Return tt, cleared_state)
  ∧ (current_session_id s = Some session_id →
     clear_memory None s = (Return tt, cleared_state)).
Proof.
  intros Hid Hp cleared_state.
  assert (H : ∀ arg, target_session arg s = Some session_id →
                     clear_memory arg s = (Return tt, cleared_state)).
  { intros arg Htarget. rewrite clear_memory_eq, Htarget.
    unfold cleared. rewrite truthy_some by exact Hid.
    simpl str_of. rewrite Hp. reflexivity. }
  split.
  - apply H. unfold target_session, py_or. rewrite truthy_some by exact Hid.
    reflexivity.
  - intros Hcur. apply H. unfold target_session, py_or. simpl. exact Hcur.
Qed.

Lemma clear_memory_keeps_profile_witness :
  ∃ p, user_profiles ann_after_three_turns !! "s1" = Some p
       ∧ length (conversation_history p) = 3
       ∧ user_profiles (snd (clear_memory (Some "s1") ann_after_three_turns)) !! "s1"
         = Some {| name := Some "Ann";
                   preferences := [("color", "blue")];
                   conversation_history := [] |}
       ∧ session_memory (snd (clear_memory (Some "s1") ann_after_three_turns)) = [].
Proof.
  assert (Hp : user_profiles ann_after_three_turns !! "s1"
               = Some {| name := Some "Ann";
                         preferences := [("color", "blue")];
                         conversation_history :=
                           repeat {| user := "hi"; assistant := "yo" |} 3 |})
    by (vm_compute; reflexivity).
  eexists. split; [exact Hp|]. split; [reflexivity|].
  destruct (clear_memory_keeps_profile ann_after_three_turns "s1" _
              ltac:(discriminate) Hp) as [Hclear _].
  rewrite Hclear. cbn [snd user_profiles session_memory].
  rewrite lookup_insert_eq. split; reflexivity.
Defined.

(** C8 as stated fails: the empty session id has a profile here, and
    [clear_memory] on it leaves the buffer and the counter's session as they
    were: the buffer still holds the turn of ["s1"]. *)
Lemma clear_memory_empty_id_clears_nothing :
  ¬ (∀ p, user_profiles empty_id_with_profile !! "" = Some p →
          session_memory (snd (clear_memory (Some "") empty_id_with_profile)) = []).
Proof.
  intros H.
  destruct (user_profiles empty_id_with_profile !! "") as [p|] eqn:Hp;
    [|vm_compute in Hp; discriminate Hp].
  specialize (H p eq_refl). vm_compute in H. discriminate H.
Qed.

(** ** get_conversation_history *)

(** C10, as amended: [get_conversation_history] always returns and leaves
    every attribute as it was; for a non-empty session id that no call has
    named, and with no argument while no session is active, it returns the
    empty list. *)
Theorem get_conversation_history_total :
  (∀ s session_id,
     ∃ history, get_conversation_history session_id s = (Return history, s))
  ∧ (∀ calls session_id,
       session_id ≠ "" →
       Forall (fun c => ¬ refers_to session_id c) calls →
       get_conversation_history (Some session_id) (run calls new_chatbot)
       = (Return [], run calls new_chatbot))
  ∧ (∀ s, truthy (current_session_id s) = false →
          get_conversation_history None s = (Return [], s)).
Proof.
  repeat apply conj.
  - intros s session_id. rewrite get_conversation_history_eq. eauto.
  - intros calls session_id Hid Hall. rewrite get_conversation_history_eq.
    unfold history_of, target_session, py_or.
    rewrite !truthy_some by exact Hid. simpl str_of.
    rewrite never_referred_absent by exact Hall. reflexivity.
  - intros s Hcur. rewrite get_conversation_history_eq.
    unfold history_of, target_session, py_or. simpl. rewrite Hcur. reflexivity.
Qed.

Lemma get_conversation_history_total_witness :
  get_conversation_history (Some "s2") (run [StartSession "s1" (Some "Ann")] new_chatbot)
  = (Return [], run [StartSession "s1" (Some "Ann")] new_chatbot)
  ∧ get_conversation_history None new_chatbot = (Return [], new_chatbot).
Proof.
  destruct get_conversation_history_total as (_ & Hnever & Hnone).
  split.
  - apply Hnever; [discriminate|]. repeat constructor. simpl. discriminate.
  - apply Hnone. reflexivity.
Defined.

(** C10 as stated fails: no call has named the empty session id, and asking
    for its history returns the history of the active session. *)
Lemma history_of_empty_id_is_active_history :
  ¬ (Forall (fun c => ¬ refers_to "" c)
       [ StartSession "s1" (Some "Ann"); Chat (constant_llm "yo") "hi" None ] →
     fst (get_conversation_history (Some "") ann_after_one_turn) = Return []).
Proof.
  intros H.
  assert (Hnever : Forall (fun c => ¬ refers_to "" c)
                     [ StartSession "s1" (Some "Ann");
                       Chat (constant_llm "yo") "hi" None ]).
  { repeat constructor; simpl; discriminate. }
  specialize (H Hnever). vm_compute in H. discriminate H.
Qed.

(** ** The rolling buffer *)

Lemma window_save_context_length buffer e :
  length (window_save_context buffer e) ≤ 10.
Proof.
  unfold window_save_context, k. rewrite length_drop, length_app. simpl. lia.
Qed.

Lemma window_save_context_fifo buffer e :
  window_save_context buffer e
  = drop (length buffer + 1 - 10) buffer ++ [e].
Proof.
  unfold window_save_context, k. rewrite length_app. simpl.
  apply drop_app_le. lia.
Qed.

(** What a call can do to [session_memory]: nothing, empty it, or save one
    exchange in it, possibly after emptying it. *)
Lemma exec_session_memory c s :
  session_memory (exec c s) = session_memory s
  ∨ session_memory (exec c s) = []
  ∨ ∃ e, session_memory (exec c s) = window_save_context (session_memory s) e
         ∨ session_memory (exec c s) = window_save_context [] e.
Proof.
  destruct c as [sid user_name|sid|sid key value|llm message arg|arg|arg|arg];
    simpl exec.
  - left. apply start_session_session_memory.
  - left. reflexivity.
  - left. rewrite update_user_preference_eq. reflexivity.
  - destruct (chat_outcome llm message arg s) as (_ & [H|[H|H]]).
    + destruct H as (_ & _ & ->). left. apply switched_frame.
    + destruct H as (_ & _ & _ & [H|H]); auto.
    + destruct H as (response & history & prefix & _ & _ & _ & _ & e & H).
      right. right. exists e. exact H.
  - left. rewrite get_conversation_history_eq. reflexivity.
  - rewrite clear_memory_eq. unfold cleared.
    destruct (truthy _); [|left; reflexivity].
    right. left. destruct (user_profiles s !! _); reflexivity.
  - left. rewrite get_session_info_state. reflexivity.
Qed.

Lemma run_session_memory_bounded calls : ∀ s,
  length (session_memory s) ≤ 10 →
  length (session_memory (run calls s)) ≤ 10.
Proof.
  induction calls as [|c calls IH]; intros s H; [exact H|].
  rewrite run_cons. apply IH.
  destruct (exec_session_memory c s) as [->|[->|[e [->| ->]]]];
    [exact H|simpl; lia|apply window_save_context_length..].
Qed.

(** C6: whatever calls are made on a new chatbot, [session_memory] holds at
    most 10 entries. Saving an entry in a buffer drops entries from its front
    only, as many as exceed the capacity, and every call leaves in the buffer
    a final segment of what it held, followed by at most one new entry. *)
Theorem session_memory_bounded_fifo :
  (∀ calls, length (session_memory (run calls new_chatbot)) ≤ 10)
  ∧ (∀ buffer e,
       ∃ evicted,
         buffer ++ [e] = evicted ++ window_save_context buffer e
         ∧ length evicted = length buffer + 1 - 10)
  ∧ (∀ c s,
       ∃ evicted kept new,
         session_memory s = evicted ++ kept
         ∧ session_memory (exec c s) = kept ++ new
         ∧ length new ≤ 1).
Proof.
  repeat apply conj.
  - intros calls. apply run_session_memory_bounded. simpl. lia.
  - intros buffer e. exists (take (length buffer + 1 - 10) buffer).
    rewrite window_save_context_fifo, app_assoc, take_drop.
    split; [reflexivity|]. rewrite length_take. lia.
  - intros c s.
    destruct (exec_session_memory c s) as [H|[H|[e [H|H]]]]; rewrite H.
    + exists [], (session_memory s), []. rewrite app_nil_r. simpl. auto.
    + exists (session_memory s), [], []. rewrite app_nil_r. simpl. auto.
    + exists (take (length (session_memory s) + 1 - 10) (session_memory s)),
             (drop (length (session_memory s) + 1 - 10) (session_memory s)), [e].
      rewrite take_drop, window_save_context_fifo. simpl. auto.
    + exists (session_memory s), [], [e]. rewrite app_nil_r. simpl. auto.
Qed.

(** ** Scenarios of the specification, evaluated *)

(** Start ["s1"] as Ann, set a preference, chat eleven times: one summary is
    saved and announced, the counter is back at 0, the history has eleven
    entries and the buffer holds the eleventh turn. *)
Example eleven_chats_summarize_once :
  let s := run (StartSession "s1" (Some "Ann")
                  :: UpdateUserPreference "s1" "color" "blue"
                  :: repeat (Chat (constant_llm "yo") "hi" None) 11)
             new_chatbot in
  summary_memory s = [summary_entry "yo"]
  ∧ stdout s = ["[System] Conversation summarized: yo"]
  ∧ message_count s = 0
  ∧ length (history_of (Some "s1") s) = 11
  ∧ session_memory s
    = [ {| input := "User's name: Ann. User preferences: color: blue. hi";
           output := "yo" |} ].
Proof. vm_compute. repeat split. Qed.

(** The counter is reset by [start_session] and the buffer is not: switching
    to ["s2"] after ten turns of ["s1"] and chatting on fills the buffer past
    ten turns, and the eleventh turn pushes the oldest one out. *)
Example buffer_carried_over_and_capped :
  let s := run (StartSession "s1" None
                  :: repeat (Chat (constant_llm "old") "one" None) 10
                  ++ [Chat (constant_llm "new") "two" (Some "s2")])
             new_chatbot in
  current_session_id s = Some "s2"
  ∧ message_count s = 1
  ∧ length (session_memory s) = 10
  ∧ last (session_memory s) = Some {| input := "two"; output := "new" |}.
Proof. vm_compute. repeat split. Qed.

(** The greeting of [start_session], and a preference overwritten in
    place. *)
Example greeting_and_last_write_wins :
  fst (start_session "s1" (Some "Ann") new_chatbot)
  = Return "Session s1 started. Hello Ann!"
  ∧ fst (start_session "s1" None new_chatbot) = Return "Session s1 started. Hello!"
  ∧ (preferences <$>
       user_profiles
         (run [ UpdateUserPreference "s1" "color" "blue";
                UpdateUserPreference "s1" "pet" "cat";
                UpdateUserPreference "s1" "color" "red" ] new_chatbot) !! "s1")
    = Some [("color", "red"); ("pet", "cat")].
Proof. vm_compute. repeat split. Qed.

(** ** Preferences as a dictionary *)

Lemma dict_get_set_eq d key value : dict_get (dict_set d key value) key = Some value.
Proof.
  induction d as [|[k v] d IH]; simpl.
  - rewrite String.eqb_refl. reflexivity.
  - destruct (String.eqb k key) eqn:E; simpl; rewrite E; [reflexivity|exact IH].
Qed.

Lemma dict_get_set_ne d key other value :
  other ≠ key → dict_get (dict_set d key value) other = dict_get d other.
Proof.
  intros Hne. induction d as [|[k v] d IH]; simpl.
  - rewrite (proj2 (String.eqb_neq key other)) by congruence. reflexivity.
  - destruct (String.eqb k key) eqn:E; simpl.
    + apply String.eqb_eq in E. subst k.
      rewrite (proj2 (String.eqb_neq key other)) by congruence. reflexivity.
    + destruct (String.eqb k other); [reflexivity|exact IH].
Qed.

Lemma dict_get_none d key : dict_get d key = None ↔ key ∉ map fst d.
Proof.
  induction d as [|[k v] d IH]; simpl.
  - split; [intros _; apply not_elem_of_nil|reflexivity].
  - rewrite not_elem_of_cons. destruct (String.eqb k key) eqn:E.
    + apply String.eqb_eq in E. split; [discriminate|]. intros [H _]. congruence.
    + apply String.eqb_neq in E. rewrite IH. split; [intros H|intros [_ H]]; auto.
Qed.

Lemma dict_set_present d key value :
  is_Some (dict_get d key) → map fst (dict_set d key value) = map fst d.
Proof.
  induction d as [|[k v] d IH]; simpl; intros H.
  - destruct H as [? H]. discriminate H.
  - destruct (String.eqb k key) eqn:E; simpl; [reflexivity|].
    rewrite IH by exact H. reflexivity.
Qed.

Lemma dict_set_absent d key value :
  dict_get d key = None → dict_set d key value = d ++ [(key, value)].
Proof.
  induction d as [|[k v] d IH]; simpl; intros H; [reflexivity|].
  destruct (String.eqb k key) eqn:E; [discriminate H|].
  rewrite IH by exact H. reflexivity.
Qed.

Lemma dict_set_nodup d key value :
  NoDup (map fst d) → NoDup (map fst (dict_set d key value)).
Proof.
  intros Hd. destruct (dict_get d key) as [v|] eqn:E.
  - rewrite dict_set_present by eauto. exact Hd.
  - rewrite dict_set_absent by exact E.
    rewrite map_app. simpl. apply NoDup_app. split; [exact Hd|]. split.
    + intros k Hk Hin. apply list_elem_of_singleton in Hin. subst k.
      apply dict_get_none in E. contradiction.
    + apply NoDup_singleton.
Qed.

(** What one call can do to the name and the preferences of a profile: the
    profile before the call is the empty one when the call creates it. *)
Lemma exec_profile_step c s session_id p' :
  user_profiles (exec c s) !! session_id = Some p' →
  let p := default (empty_profile None) (user_profiles s !! session_id) in
  (preferences p' = preferences p
   ∨ ∃ key value, preferences p' = dict_set (preferences p) key value)
  ∧ (name p' = name p ∨ ∃ n, n ≠ "" ∧ name p' = Some n).
Proof.
  assert (Hsame : ∀ q, user_profiles s !! session_id = Some q → q = p' →
            let p := default (empty_profile None) (user_profiles s !! session_id) in
            (preferences p' = preferences p
             ∨ ∃ key value, preferences p' = dict_set (preferences p) key value)
            ∧ (name p' = name p ∨ ∃ n, n ≠ "" ∧ name p' = Some n)).
  { intros q Hq <-. rewrite Hq. simpl. auto. }
  destruct c as [sid user_name|sid|sid key value|llm message arg|arg|arg|arg];
    simpl exec.
  - rewrite start_session_eq. unfold started. simpl.
    destruct (truthy user_name) eqn:Hn; simpl; [|intros H; eapply Hsame; eauto].
    destruct (decide (sid = session_id)) as [->|Hne].
    + rewrite lookup_insert_eq. intros H. injection H as <-.
      assert (Hname : ∃ n, n ≠ "" ∧ user_name = Some n).
      { destruct user_name as [n|]; [|discriminate Hn].
        exists n. split; [apply truthy_str_true, Hn|reflexivity]. }
      destruct (user_profiles s !! session_id) as [q|]; simpl; auto.
    + rewrite lookup_insert_ne by exact Hne. intros H. eapply Hsame; eauto.
  - simpl. intros H. eapply Hsame; eauto.
  - rewrite update_user_preference_eq. unfold preferred. simpl.
    destruct (decide (sid = session_id)) as [->|Hne].
    + rewrite lookup_insert_eq. intros H. injection H as <-. simpl.
      split; [right; eauto|left; reflexivity].
    + rewrite lookup_insert_ne by exact Hne. intros H. eapply Hsame; eauto.
  - destruct (chat_outcome llm message arg s) as (_ & [H|[H|H]]).
    + destruct H as (_ & _ & ->).
      destruct (switched_frame arg s) as (-> & _). intros H. eapply Hsame; eauto.
    + destruct H as (_ & _ & -> & _). intros H. eapply Hsame; eauto.
    + destruct H as (response & history & prefix & _ & _ & _ & -> & _).
      set (active := str_of (current_session_id (switched arg s))).
      destruct (user_profiles s !! active) as [q|] eqn:E;
        [|intros H; eapply Hsame; eauto].
      destruct (decide (active = session_id)) as [Heq|Hne].
      * rewrite Heq in E |- *. rewrite lookup_insert_eq. intros H. injection H as <-.
        rewrite E. simpl. auto.
      * rewrite lookup_insert_ne by exact Hne. intros H. eapply Hsame; eauto.
  - rewrite get_conversation_history_eq. simpl. intros H. eapply Hsame; eauto.
  - rewrite clear_memory_eq. simpl. rewrite cleared_lookup.
    destruct (_ && _); [|intros H; eapply Hsame; eauto].
    destruct (user_profiles s !! session_id) as [q|]; simpl; [|discriminate].
    intros H. injection H as <-. simpl. auto.
  - rewrite get_session_info_state. intros H. eapply Hsame; eauto.
Qed.

Lemma run_snoc calls c s : run (calls ++ [c]) s = exec c (run calls s).
Proof. unfold run. rewrite fold_left_app. reflexivity. Qed.

(** X1: [update_user_preference] makes [value] the value of [key] for the
    session, creating the profile when there is none; every other preference
    of every session reads as before, the profile keeps its name and history,
    and the buffer, the summaries, the counter and the active session are
    left alone. *)
Theorem preference_update_lookup (s : StatefulChatbot)
    (session_id key value : string) :
  update_user_preference session_id key value s
  = (Return tt, snd (update_user_preference session_id key value s))
  ∧ preference_of (snd (update_user_preference session_id key value s))
      session_id key = Some value
  ∧ (∀ other_id other_key,
       (other_id, other_key) ≠ (session_id, key) →
       preference_of (snd (update_user_preference session_id key value s))
         other_id other_key
       = preference_of s other_id other_key)
  ∧ (∃ p', user_profiles (snd (update_user_preference session_id key value s))
             !! session_id = Some p'
           ∧ name p' = user_profiles s !! session_id ≫= name
           ∧ conversation_history p'
             = default [] (conversation_history <$> user_profiles s !! session_id))
  ∧ session_memory (snd (update_user_preference session_id key value s))
    = session_memory s
  ∧ summary_memory (snd (update_user_preference session_id key value s))
    = summary_memory s
  ∧ current_session_id (snd (update_user_preference session_id key value s))
    = current_session_id s
  ∧ message_count (snd (update_user_preference session_id key value s))
    = message_count s.
Proof.
  rewrite update_user_preference_eq. simpl snd. unfold preference_of, preferred.
  simpl. split; [reflexivity|]. split; [|split; [|split]].
  - rewrite lookup_insert_eq. simpl. apply dict_get_set_eq.
  - intros other_id other_key Hne.
    destruct (decide (session_id = other_id)) as [<-|Hid].
    + rewrite lookup_insert_eq. simpl.
      rewrite dict_get_set_ne by congruence.
      destruct (user_profiles s !! session_id); reflexivity.
    + rewrite lookup_insert_ne by exact Hid. reflexivity.
  - rewrite lookup_insert_eq. eexists. split; [reflexivity|].
    destruct (user_profiles s !! session_id); simpl; auto.
  - auto.
Qed.

(** X2: in every state a run of calls can reach from a new chatbot, the keys
    of every profile's preferences are distinct; assigning to a key that is
    present keeps the order of the keys, and a new key goes last. *)
Theorem preferences_keys_distinct :
  (∀ calls session_id p,
     user_profiles (run calls new_chatbot) !! session_id = Some p →
     NoDup (map fst (preferences p)))
  ∧ (∀ d key value,
       is_Some (dict_get d key) → map fst (dict_set d key value) = map fst d)
  ∧ (∀ d key value,
       dict_get d key = None → dict_set d key value = d ++ [(key, value)]).
Proof.
  split; [|split; [apply dict_set_present|apply dict_set_absent]].
  induction calls as [|c calls IH] using rev_ind; intros session_id p.
  - simpl. rewrite lookup_empty. discriminate.
  - rewrite run_snoc. intros Hp.
    destruct (exec_profile_step c (run calls new_chatbot) session_id p Hp)
      as [Hprefs _].
    assert (Hbefore : NoDup (map fst (preferences
              (default (empty_profile None)
                 (user_profiles (run calls new_chatbot) !! session_id))))).
    { destruct (user_profiles (run calls new_chatbot) !! session_id) as [q|] eqn:E.
      - simpl. eapply IH, E.
      - simpl. apply NoDup_nil_2. }
    destruct Hprefs as [->|(key & value & ->)];
      [exact Hbefore|apply dict_set_nodup, Hbefore].
Qed.

Lemma preferences_keys_distinct_witness :
  NoDup (map fst [("color", "red"); ("pet", "cat")])
  ∧ dict_set [("color", "blue"); ("pet", "cat")] "color" "red"
    = [("color", "red"); ("pet", "cat")].
Proof.
  destruct preferences_keys_distinct as (Hrun & Hpresent & _).
  split.
  - apply (Hrun [ UpdateUserPreference "s1" "color" "blue";
                  UpdateUserPreference "s1" "pet" "cat";
                  UpdateUserPreference "s1" "color" "red" ]
             "s1" {| name := None;
                     preferences := [("color", "red"); ("pet", "cat")];
                     conversation_history := [] |}).
    vm_compute. reflexivity.
  - reflexivity.
Defined.

Lemma preference_update_lookup_witness :
  preference_of (snd (update_user_preference "s1" "color" "red" ann_after_three_turns))
    "s1" "color" = Some "red"
  ∧ preference_of (snd (update_user_preference "s1" "pet" "cat" ann_after_three_turns))
      "s1" "color"
    = preference_of ann_after_three_turns "s1" "color".
Proof.
  split.
  - apply (preference_update_lookup ann_after_three_turns "s1" "color" "red").
  - apply (preference_update_lookup ann_after_three_turns "s1" "pet" "cat").
    intros H. discriminate H.
Defined.

(** ** Starting a session again *)

Lemma set_name_twice n p : set_name n (set_name n p) = set_name n p.
Proof. reflexivity. Qed.

(** X3: [start_session] is idempotent: a second call with the same id and
    name returns the same greeting and leaves the attributes the first call
    left. *)
Theorem start_session_idempotent (s : StatefulChatbot) (session_id : string)
    (user_name : option string) :
  start_session session_id user_name (snd (start_session session_id user_name s))
  = start_session session_id user_name s.
Proof.
  rewrite !start_session_eq. simpl snd. f_equal.
  unfold started. destruct (truthy user_name); [|reflexivity].
  simpl. rewrite lookup_insert_eq, insert_insert_eq.
  destruct (user_profiles s !! session_id); reflexivity.
Qed.

(** X4: [start_session] with a non-empty name on a session that has a
    profile replaces the stored name and keeps the preferences and the
    history; on a session without one it creates a profile with that name,
    no preferences and no history; no other profile changes. Without a name
    the profiles are left as they were. *)
Theorem start_session_profile (s : StatefulChatbot) (session_id : string) :
  (∀ user_name,
     user_name ≠ "" →
     user_profiles (snd (start_session session_id (Some user_name) s)) !! session_id
     = Some {| name := Some user_name;
               preferences :=
                 default [] (preferences <$> user_profiles s !! session_id);
               conversation_history :=
                 default [] (conversation_history <$> user_profiles s !! session_id) |}
     ∧ ∀ other, other ≠ session_id →
         user_profiles (snd (start_session session_id (Some user_name) s)) !! other
         = user_profiles s !! other)
  ∧ (∀ user_name,
       truthy user_name = false →
       user_profiles (snd (start_session session_id user_name s)) = user_profiles s).
Proof.
  split.
  - intros user_name Hname. rewrite start_session_eq. unfold started.
    rewrite truthy_some by exact Hname. simpl. split.
    + rewrite lookup_insert_eq.
      destruct (user_profiles s !! session_id); reflexivity.
    + intros other Hother. apply lookup_insert_ne. congruence.
  - intros user_name Hname. rewrite start_session_eq. unfold started.
    rewrite Hname. reflexivity.
Qed.

Lemma start_session_profile_witness :
  user_profiles (snd (start_session "s1" (Some "Bea") ann_after_three_turns)) !! "s1"
  = Some {| name := Some "Bea";
            preferences :=
              default [] (preferences <$> user_profiles ann_after_three_turns !! "s1");
            conversation_history :=
              default [] (conversation_history
                            <$> user_profiles ann_after_three_turns !! "s1") |}
  ∧ user_profiles (snd (start_session "s1" (Some "") ann_after_three_turns))
    = user_profiles ann_after_three_turns.
Proof.
  destruct (start_session_profile ann_after_three_turns "s1") as [Hnamed Hunnamed].
  split.
  - apply Hnamed. discriminate.
  - apply Hunnamed. reflexivity.
Defined.

(** ** clear_memory across sessions *)

(** X5: [clear_memory] with a non-empty session id empties the buffer and
    the summaries and resets the counter whichever session is active, keeps
    the active session, and changes no profile but the named one; with
    neither an argument nor an active session it changes nothing; clearing
    twice is clearing once. *)
Theorem clear_memory_shared_state (s : StatefulChatbot) :
  (∀ session_id,
     session_id ≠ "" →
     let s' := snd (clear_memory (Some session_id) s) in
     session_memory s' = []
     ∧ summary_memory s' = []
     ∧ message_count s' = 0
     ∧ current_session_id s' = current_session_id s
     ∧ stdout s' = stdout s
     ∧ (∀ other, other ≠ session_id →
          user_profiles s' !! other = user_profiles s !! other)
     ∧ (user_profiles s !! session_id = None → user_profiles s' = user_profiles s))
  ∧ (∀ session_id,
       truthy session_id = false →
       truthy (current_session_id s) = false →
       clear_memory session_id s = (Return tt, s))
  ∧ (∀ session_id,
       clear_memory session_id (snd (clear_memory session_id s))
       = clear_memory session_id s).
Proof.
  repeat apply conj.
  - intros session_id Hid s'. subst s'. rewrite clear_memory_eq. simpl snd.
    assert (Ht : target_session (Some session_id) s = Some session_id).
    { unfold target_session, py_or. rewrite truthy_some by exact Hid. reflexivity. }
    rewrite Ht. unfold cleared. rewrite truthy_some by exact Hid. simpl str_of.
    destruct (user_profiles s !! session_id) as [p|] eqn:E; simpl.
    + repeat (split; [reflexivity|]). split; [|discriminate].
      intros other Hother. apply lookup_insert_ne. congruence.
    + repeat (split; [reflexivity|]). split; reflexivity.
  - intros session_id Harg Hcur. rewrite clear_memory_eq.
    unfold target_session, py_or, cleared. rewrite Harg, Hcur. reflexivity.
  - intros session_id. rewrite !clear_memory_eq. simpl snd. f_equal.
    assert (Ht : target_session session_id (cleared (target_session session_id s) s)
                 = target_session session_id s).
    { unfold target_session, py_or, cleared.
      destruct (truthy session_id); [reflexivity|].
      destruct (truthy (current_session_id s)); [|reflexivity].
      destruct (user_profiles s !! str_of (current_session_id s)); reflexivity. }
    rewrite Ht. unfold cleared.
    destruct (truthy (target_session session_id s)); [|reflexivity].
    destruct (user_profiles s !! str_of (target_session session_id s)) as [p|] eqn:E;
      simpl.
    + rewrite lookup_insert_eq, insert_insert_eq. reflexivity.
    + rewrite E. reflexivity.
Qed.

Lemma clear_memory_shared_state_witness :
  session_memory (snd (clear_memory (Some "s2") ann_after_three_turns)) = []
  ∧ message_count (snd (clear_memory (Some "s2") ann_after_three_turns)) = 0
  ∧ user_profiles (snd (clear_memory (Some "s2") ann_after_three_turns))
    = user_profiles ann_after_three_turns
  ∧ clear_memory None new_chatbot = (Return tt, new_chatbot).
Proof.
  destruct (clear_memory_shared_state ann_after_three_turns) as (Hwipe & _ & _).
  destruct (Hwipe "s2" ltac:(discriminate)) as (H1 & _ & H3 & _ & _ & _ & H7).
  destruct (clear_memory_shared_state new_chatbot) as (_ & Hnothing & _).
  split; [exact H1|]. split; [exact H3|]. split.
  - apply H7. vm_compute. reflexivity.
  - apply Hnothing; reflexivity.
Defined.

(** ** get_session_info *)

(** X6: [get_session_info] never raises and changes nothing. It returns the
    error dictionary exactly when there is neither a non-empty argument nor
    an active session; otherwise its snapshot names the target session, gives
    the name, the preferences and the history length that [get_user_profile]
    and [get_conversation_history] give for it, and gives the counter of the
    chatbot, whichever session was asked for. *)
Theorem get_session_info_snapshot (s : StatefulChatbot) (session_id : option string) :
  snd (get_session_info session_id s) = s
  ∧ ((fst (get_session_info session_id s) = Return (inl "No active session")
      ∧ truthy session_id = false
      ∧ truthy (current_session_id s) = false)
     ∨ ∃ target info history,
         fst (get_session_info session_id s) = Return (inr info)
         ∧ target ≠ ""
         ∧ py_or session_id (current_session_id s) = Some target
         ∧ info_session_id info = target
         ∧ info_message_count info = message_count s
         ∧ fst (get_conversation_history session_id s) = Return history
         ∧ info_history_length info = length history
         ∧ info_user_name info = user_profiles s !! target ≫= name
         ∧ info_preferences info
           = default [] (preferences <$> user_profiles s !! target)).
Proof.
  split; [apply get_session_info_state|].
  rewrite get_conversation_history_eq.
  unfold get_session_info, history_of, target_session. unfold_m. simpl.
  destruct (truthy (py_or session_id (current_session_id s))) eqn:Ht; simpl.
  - right.
    exists (str_of (py_or session_id (current_session_id s))).
    eexists. eexists. split; [reflexivity|].
    split; [apply truthy_nonempty, Ht|].
    split; [apply truthy_str_of, Ht|].
    repeat (split; [reflexivity|]).
    split; [|split; reflexivity].
    simpl. destruct (user_profiles s !! _); reflexivity.
  - left. split; [reflexivity|].
    unfold py_or in Ht. destruct (truthy session_id) eqn:Hs.
    + rewrite Hs in Ht. discriminate Ht.
    + auto.
Qed.

Lemma get_session_info_snapshot_witness :
  fst (get_session_info None new_chatbot) = Return (inl "No active session").
Proof.
  destruct (get_session_info_snapshot new_chatbot None) as [_ [(H & _ & _)|H]].
  - exact H.
  - destruct H as (target & info & history & _ & Hne & Htarget & _).
    vm_compute in Htarget. discriminate Htarget.
Defined.

(** ** Failing model calls *)

Lemma stays_switches session_id s :
  session_id = None ∨ session_id = current_session_id s →
  switches session_id (current_session_id s) = false.
Proof. intros [->| ->]; [apply switches_none|apply switches_current]. Qed.

Lemma chat_raise_profiles llm message session_id s e :
  fst (chat llm message session_id s) = Raise e →
  user_profiles (snd (chat llm message session_id s)) = user_profiles s.
Proof.
  intros He.
  destruct (chat_outcome llm message session_id s) as (_ & [H|[H|H]]).
  - destruct H as (_ & _ & ->). apply switched_frame.
  - destruct H as (_ & _ & H & _). exact H.
  - destruct H as (response & history & prefix & Hr & _). congruence.
Qed.

(** X7: a [chat] that raises records nothing in any profile. When the chain
    call fails on an active session below the threshold, the call raises the
    upstream failure, the counter has still gone up by one, and nothing else
    has changed. *)
Theorem failed_chat_counts_turn (llm : ChatOpenAI) (message : string)
    (session_id : option string) (s : StatefulChatbot) :
  (∀ e, fst (chat llm message session_id s) = Raise e →
        user_profiles (snd (chat llm message session_id s)) = user_profiles s)
  ∧ (truthy (current_session_id s) = true →
     session_id = None ∨ session_id = current_session_id s →
     message_count s + 1 ≤ 10 →
     (∀ history text, complete llm history text = None) →
     chat llm message session_id s
     = (Raise UpstreamError,
        {| session_memory := session_memory s;
           summary_memory := summary_memory s;
           user_profiles := user_profiles s;
           current_session_id := current_session_id s;
           message_count := message_count s + 1;
           stdout := stdout s |})).
Proof.
  split; [intros e; apply chat_raise_profiles|].
  intros Hcur Harg Hcount Hllm.
  rewrite chat_active_below; [|exact Hcur|apply stays_switches, Harg|exact Hcount].
  cbv zeta. rewrite Hllm. reflexivity.
Qed.

Lemma failed_chat_counts_turn_witness :
  chat {| invoke := fun _ => None; complete := fun _ _ => None |} "hi" None
    ann_after_three_turns
  = (Raise UpstreamError,
     {| session_memory := session_memory ann_after_three_turns;
        summary_memory := summary_memory ann_after_three_turns;
        user_profiles := user_profiles ann_after_three_turns;
        current_session_id := current_session_id ann_after_three_turns;
        message_count := message_count ann_after_three_turns + 1;
        stdout := stdout ann_after_three_turns |}).
Proof.
  apply (failed_chat_counts_turn
           {| invoke := fun _ => None; complete := fun _ _ => None |} "hi" None
           ann_after_three_turns).
  - reflexivity.
  - left. reflexivity.
  - vm_compute. lia.
  - reflexivity.
Defined.

Lemma chat_summary_refused llm message session_id s :
  truthy (current_session_id s) = true →
  session_id = None ∨ session_id = current_session_id s →
  10 ≤ message_count s →
  (∀ prompt, invoke llm prompt = None) →
  chat llm message session_id s = (Raise UpstreamError, counted s).
Proof.
  intros Hcur Harg Hcount Hllm. rewrite chat_eq. cbv zeta.
  rewrite switched_same by (apply stays_switches, Harg). rewrite Hcur. simpl negb.
  cbv iota. unfold summarize_phase.
  replace (Nat.ltb 10 (message_count (counted s))) with true
    by (symmetry; apply Nat.ltb_lt; simpl; lia).
  rewrite Hllm. reflexivity.
Qed.

Lemma with_message_count_same s : with_message_count (message_count s) s = s.
Proof. destruct s. reflexivity. Qed.

(** X8: when the summary request fails the counter is not reset, so the
    summarization is tried again by every later [chat]: in a run of [chat]
    calls on the active session whose summary requests all fail, starting
    with the counter at 10 or above, every call only adds one to the
    counter; the chain is never asked and nothing is recorded. *)
Theorem failed_summary_is_retried (active : string) (calls : list Call) :
  ∀ s : StatefulChatbot,
    current_session_id s = Some active →
    active ≠ "" →
    10 ≤ message_count s →
    Forall (summary_refused active) calls →
    run calls s = with_message_count (message_count s + length calls) s.
Proof.
  induction calls as [|c calls IH]; intros s Hcur Hid Hcount Hall.
  - simpl. rewrite Nat.add_0_r. symmetry. apply with_message_count_same.
  - rewrite run_cons. inversion Hall as [|? ? Hc Hrest]; subst.
    destruct c as [| | |llm message session_id| | |]; simpl in Hc; try contradiction.
    destruct Hc as [Harg Hllm]. simpl exec.
    rewrite chat_summary_refused;
      [|rewrite Hcur; apply truthy_some, Hid
       |rewrite Hcur; exact Harg
       |exact Hcount
       |exact Hllm].
    simpl snd. rewrite IH; [|exact Hcur|exact Hid|simpl; lia|exact Hrest].
    unfold counted, with_message_count. simpl. f_equal. lia.
Qed.

Lemma failed_summary_is_retried_witness :
  run (repeat (Chat {| invoke := fun _ => None; complete := fun _ _ => Some "yo" |}
                 "hi" None) 3)
    before_second_summary
  = with_message_count (message_count before_second_summary + 3) before_second_summary.
Proof.
  apply (failed_summary_is_retried "s1").
  - reflexivity.
  - discriminate.
  - vm_compute. lia.
  - simpl. repeat (constructor; [split; [left; reflexivity|reflexivity]|]).
    constructor.
Defined.

(** ** The turn that summarizes *)

Lemma enhanced_message_append context message :
  enhanced_message context message = context +:+ message.
Proof.
  unfold enhanced_message, truthy_str.
  destruct (String.eqb context "") eqn:E; [|reflexivity].
  apply String.eqb_eq in E. subst context. reflexivity.
Qed.



(** ** Switching sessions *)

Lemma chat_switch_eq llm message session_id s :
  session_id ≠ "" →
  Some session_id ≠ current_session_id s →
  chat llm message (Some session_id) s
  = chat llm message None (started session_id None s).
Proof.
  intros Hid Hne.
  assert (Hsw : switched (Some session_id) s = started session_id None s).
  { unfold switched. rewrite switches_other by done. reflexivity. }
  rewrite !chat_eq. cbv zeta. rewrite Hsw.
  rewrite (switched_same None) by apply switches_none. reflexivity.
Qed.

Lemma chat_switch_fields llm message session_id s :
  session_id ≠ "" →
  Some session_id ≠ current_session_id s →
  current_session_id (snd (chat llm message (Some session_id) s)) = Some session_id
  ∧ message_count (snd (chat llm message (Some session_id) s)) = 1
  ∧ summary_memory (snd (chat llm message (Some session_id) s)) = summary_memory s
  ∧ stdout (snd (chat llm message (Some session_id) s)) = stdout s.
Proof.
  intros Hid Hne. rewrite chat_switch_eq by done.
  destruct (chat_below_fields llm message None (started session_id None s))
    as (H1 & H2 & H3 & H4).
  - rewrite started_current. apply truthy_some, Hid.
  - apply switches_none.
  - rewrite started_count. lia.
  - rewrite H1, H2, H3, H4, started_current, started_count. auto.
Qed.

(** X10: a [chat] that names another non-empty session id restarts the
    counter, so a caller that names a different session on every call never
    gets a summarization: over any such run no summary is saved, nothing is
    printed, and after each call the counter is 1. *)
Theorem alternating_sessions_never_summarize (calls : list Call) :
  ∀ s : StatefulChatbot,
    alternating (current_session_id s) calls →
    summary_memory (run calls s) = summary_memory s
    ∧ stdout (run calls s) = stdout s
    ∧ (calls ≠ [] → message_count (run calls s) = 1).
Proof.
  induction calls as [|c calls IH]; intros s Halt.
  - simpl. split; [reflexivity|].
    split; [reflexivity|intros H; exfalso; apply H; reflexivity].
  - rewrite run_cons.
    destruct c as [| | |llm message [session_id|]| | |]; simpl in Halt;
      try contradiction.
    destruct Halt as (Hid & Hne & Hrest). simpl exec.
    destruct (chat_switch_fields llm message session_id s Hid Hne)
      as (Hc & Hn & Hs & Ho).
    destruct (IH (snd (chat llm message (Some session_id) s))) as (H1 & H2 & H3).
    { rewrite Hc. exact Hrest. }
    rewrite H1, H2, Hs, Ho. split; [reflexivity|]. split; [reflexivity|].
    intros _. destruct calls as [|c' calls']; [exact Hn|].
    apply H3. discriminate.
Qed.

Lemma alternating_sessions_never_summarize_witness :
  summary_memory
    (run (concat (repeat [ Chat (constant_llm "yo") "hi" (Some "s1");
                           Chat (constant_llm "yo") "hi" (Some "s2") ] 12))
       new_chatbot) = []
  ∧ message_count
      (run (concat (repeat [ Chat (constant_llm "yo") "hi" (Some "s1");
                             Chat (constant_llm "yo") "hi" (Some "s2") ] 12))
         new_chatbot) = 1.
Proof.
  destruct (alternating_sessions_never_summarize
              (concat (repeat [ Chat (constant_llm "yo") "hi" (Some "s1");
                                Chat (constant_llm "yo") "hi" (Some "s2") ] 12))
              new_chatbot)
    as (Hs & _ & Hc).
  - simpl. repeat (split; [discriminate|split; [discriminate|]]). exact I.
  - split; [exact Hs|]. apply Hc. discriminate.
Defined.

(** ** History over a run *)

Lemma chat_answered_step llm message session_id s active p :
  current_session_id s = Some active →
  active ≠ "" →
  session_id = None ∨ session_id = Some active →
  answers llm →
  user_profiles s !! active = Some p →
  ∃ response,
    fst (chat llm message session_id s) = Return response
    ∧ user_profiles (snd (chat llm message session_id s))
      = <[active := with_exchange message response p]> (user_profiles s)
    ∧ current_session_id (snd (chat llm message session_id s)) = Some active.
Proof.
  intros Hcur Hid Harg [Hinvoke Hcomplete] Hp.
  assert (Hreturn : ∃ response, fst (chat llm message session_id s) = Return response).
  { rewrite chat_eq. cbv zeta.
    rewrite switched_same by (rewrite Hcur; apply switches_stay, Harg).
    rewrite Hcur, truthy_some by exact Hid. simpl negb. cbv iota.
    unfold summarize_phase.
    destruct (Nat.ltb 10 (message_count (counted s))).
    - destruct (Hinvoke (summary_prompt (messages (session_memory (counted s)))))
        as [summary ->].
      match goal with
      | |- context [complete llm ?h ?t] => destruct (Hcomplete h t) as [r ->]
      end.
      eauto.
    - match goal with
      | |- context [complete llm ?h ?t] => destruct (Hcomplete h t) as [r ->]
      end.
      eauto. }
  destruct Hreturn as [response Hr]. exists response. split; [exact Hr|].
  destruct (chat_outcome llm message session_id s) as (Hc & [H|[H|H]]).
  - destruct H as (H & _). congruence.
  - destruct H as (H & _). congruence.
  - destruct H as (r & history & prefix & Hr' & _ & _ & Hprof & _).
    rewrite Hr in Hr'. injection Hr' as <-.
    rewrite switched_same in Hprof, Hc by (rewrite Hcur; apply switches_stay, Harg).
    rewrite Hcur in Hprof, Hc. simpl str_of in Hprof. rewrite Hp in Hprof.
    split; [exact Hprof|exact Hc].
Qed.

(** X11: the history is kept through summarizations. Over a run of [chat]
    calls on an active session that has a profile, with a model that answers
    every request, the history gains one entry per call, in the order of the
    calls and with the messages as the caller gave them; the name and the
    preferences stay. *)
Theorem history_grows_with_every_chat (active : string) (calls : list Call) :
  ∀ (s : StatefulChatbot) (p : Profile),
    current_session_id s = Some active →
    active ≠ "" →
    user_profiles s !! active = Some p →
    Forall (chat_on active) calls →
    Forall answered calls →
    ∃ p',
      user_profiles (run calls s) !! active = Some p'
      ∧ map user (conversation_history p')
        = map user (conversation_history p) ++ sent calls
      ∧ length (conversation_history p')
        = length (conversation_history p) + length calls
      ∧ name p' = name p
      ∧ preferences p' = preferences p.
Proof.
  induction calls as [|c calls IH]; intros s p Hcur Hid Hp Hon Hans.
  - exists p. simpl. rewrite app_nil_r, Nat.add_0_r. auto.
  - rewrite run_cons.
    inversion Hon as [|? ? Hc Hrest]; subst.
    inversion Hans as [|? ? Ha Harest]; subst.
    destruct c as [| | |llm message session_id| | |]; simpl in Hc; try contradiction.
    simpl in Ha. simpl exec.
    destruct (chat_answered_step llm message session_id s active p Hcur Hid Hc Ha Hp)
      as (response & _ & Hprof & Hcur').
    destruct (IH (snd (chat llm message session_id s))
                (with_exchange message response p))
      as (p' & Hp' & Husers & Hlen & Hname & Hprefs).
    + exact Hcur'.
    + exact Hid.
    + rewrite Hprof. apply lookup_insert_eq.
    + exact Hrest.
    + exact Harest.
    + exists p'. split; [exact Hp'|].
      rewrite Husers, Hlen, Hname, Hprefs. simpl.
      rewrite map_app, length_app, <- app_assoc. simpl.
      repeat split; lia.
Qed.

Lemma history_grows_with_every_chat_witness :
  ∃ p',
    user_profiles
      (run (repeat (Chat (constant_llm "yo") "again" None) 15) ann_after_three_turns)
      !! "s1" = Some p'
    ∧ length (conversation_history p') = 3 + 15.
Proof.
  destruct (history_grows_with_every_chat "s1"
              (repeat (Chat (constant_llm "yo") "again" None) 15)
              ann_after_three_turns
              {| name := Some "Ann";
                 preferences := [("color", "blue")];
                 conversation_history :=
                   repeat {| user := "hi"; assistant := "yo" |} 3 |})
    as (p' & Hp' & _ & Hlen & _).
  - reflexivity.
  - discriminate.
  - vm_compute. reflexivity.
  - simpl. repeat (constructor; [left; reflexivity|]). constructor.
  - simpl. repeat (constructor; [split; intros; eexists; reflexivity|]). constructor.
  - exists p'. split; [exact Hp'|exact Hlen].
Defined.

(** ** The counter between calls *)

Lemma chat_message_count_bound llm message session_id s :
  (∀ prompt, is_Some (invoke llm prompt)) →
  message_count s ≤ 10 →
  message_count (snd (chat llm message session_id s)) ≤ 10.
Proof.
  intros Hinvoke Hcount. rewrite chat_eq. cbv zeta.
  assert (H1 : message_count (switched session_id s) ≤ 10).
  { unfold switched. destruct (switches _ _); [|exact Hcount].
    rewrite started_count. lia. }
  destruct (truthy (current_session_id (switched session_id s))); simpl negb;
    cbv iota; [|exact H1].
  unfold summarize_phase.
  destruct (Nat.ltb 10 (message_count (counted (switched session_id s)))) eqn:E.
  - destruct (Hinvoke (summary_prompt
                (messages (session_memory (counted (switched session_id s))))))
      as [summary ->].
    set (s3 := noticed summary (summarized summary (counted (switched session_id s)))).
    assert (H3 : message_count s3 = 0).
    { unfold s3, noticed. destruct (truthy_str summary); reflexivity. }
    destruct (complete llm _ _) as [response|]; simpl snd; [|lia].
    match goal with
    | |- context [recorded ?a ?m ?r ?st] =>
        destruct (recorded_frame a m r st) as (_ & _ & _ & -> & _)
    end.
    simpl. lia.
  - apply Nat.ltb_ge in E.
    destruct (complete llm _ _) as [response|]; simpl snd; [|exact E].
    match goal with
    | |- context [recorded ?a ?m ?r ?st] =>
        destruct (recorded_frame a m r st) as (_ & _ & _ & -> & _)
    end.
    exact E.
Qed.

Lemma exec_message_count_bound c s :
  summary_given c → message_count s ≤ 10 → message_count (exec c s) ≤ 10.
Proof.
  intros Hc Hcount.
  destruct c as [sid user_name|sid|sid key value|llm message arg|arg|arg|arg];
    simpl exec.
  - rewrite start_session_eq. simpl. rewrite started_count. lia.
  - exact Hcount.
  - rewrite update_user_preference_eq. exact Hcount.
  - apply chat_message_count_bound; assumption.
  - rewrite get_conversation_history_eq. exact Hcount.
  - rewrite clear_memory_eq. simpl. unfold cleared.
    destruct (truthy _); [simpl; lia|exact Hcount].
  - rewrite get_session_info_state. exact Hcount.
Qed.

(** X12: as long as every summary request is answered, the counter is at
    most 10 after every call, whatever is called on a new chatbot. *)
Theorem counter_at_most_ten (calls : list Call) :
  Forall summary_given calls →
  message_count (run calls new_chatbot) ≤ 10.
Proof.
  induction calls as [|c calls IH] using rev_ind; intros Hall.
  - simpl. lia.
  - rewrite run_snoc. apply Forall_app in Hall as [Hcalls Hc].
    inversion Hc; subst.
    apply exec_message_count_bound; [assumption|apply IH, Hcalls].
Qed.

Lemma counter_at_most_ten_witness :
  message_count
    (run (StartSession "s1" None :: repeat (Chat (constant_llm "yo") "hi" None) 25)
       new_chatbot) ≤ 10.
Proof.
  apply counter_at_most_ten.
  simpl. constructor; [exact I|].
  repeat (constructor; [intros prompt; eexists; reflexivity|]). constructor.
Defined.

(** ** What no call removes *)

Lemma dict_set_keeps d key value other :
  is_Some (dict_get d other) → is_Some (dict_get (dict_set d key value) other).
Proof.
  intros H. destruct (decide (other = key)) as [->|Hne].
  - rewrite dict_get_set_eq. eauto.
  - rewrite dict_get_set_ne by exact Hne. exact H.
Qed.

(** X13: nothing is ever deleted from a profile. Whatever calls follow, a
    session that has a profile keeps one, a profile that has a name keeps a
    name, and every preference key it has stays defined. *)
Theorem profiles_only_grow (calls : list Call) :
  ∀ (s : StatefulChatbot) (session_id : string) (p : Profile),
    user_profiles s !! session_id = Some p →
    ∃ p',
      user_profiles (run calls s) !! session_id = Some p'
      ∧ (is_Some (name p) → is_Some (name p'))
      ∧ (∀ key, is_Some (dict_get (preferences p) key) →
                is_Some (dict_get (preferences p') key)).
Proof.
  induction calls as [|c calls IH]; intros s session_id p Hp.
  - exists p. auto.
  - rewrite run_cons.
    destruct (proj1 (exec_profile c s session_id)) as [p1 Hp1]; [eauto|].
    destruct (exec_profile_step c s session_id p1 Hp1) as [Hprefs Hname].
    rewrite Hp in Hprefs, Hname. simpl in Hprefs, Hname.
    destruct (IH (exec c s) session_id p1 Hp1) as (p' & Hp' & Hn & Hk).
    exists p'. split; [exact Hp'|]. split.
    + intros H. apply Hn. destruct Hname as [->|(n & _ & ->)]; eauto.
    + intros key H. apply Hk.
      destruct Hprefs as [->|(k & v & ->)]; [exact H|apply dict_set_keeps, H].
Qed.

Lemma profiles_only_grow_witness :
  ∃ p',
    user_profiles
      (run [ ClearMemory (Some "s1"); StartSession "s1" None;
             UpdateUserPreference "s1" "pet" "cat" ] ann_after_three_turns)
      !! "s1" = Some p'
    ∧ is_Some (name p')
    ∧ is_Some (dict_get (preferences p') "color").
Proof.
  destruct (profiles_only_grow
              [ ClearMemory (Some "s1"); StartSession "s1" None;
                UpdateUserPreference "s1" "pet" "cat" ]
              ann_after_three_turns "s1"
              {| name := Some "Ann";
                 preferences := [("color", "blue")];
                 conversation_history :=
                   repeat {| user := "hi"; assistant := "yo" |} 3 |})
    as (p' & Hp' & Hn & Hk).
  - vm_compute. reflexivity.
  - exists p'. split; [exact Hp'|]. split.
    + apply Hn. simpl. eauto.
    + apply Hk. simpl. eauto.
Defined.

(** ** What the model is asked *)

Lemma append_assoc (a b c : string) : (a +:+ b) +:+ c = a +:+ (b +:+ c).
Proof.
  induction a as [|x a IH]; [reflexivity|].
  change (String x ((a +:+ b) +:+ c) = String x (a +:+ (b +:+ c))).
  rewrite IH. reflexivity.
Qed.

Lemma chat_return_asked llm message session_id s response :
  fst (chat llm message session_id s) = Return response →
  let active := str_of (current_session_id (switched session_id s)) in
  ∃ buffer,
    complete llm (messages buffer) (context_at active s +:+ message) = Some response
    ∧ (buffer = session_memory s ∨ buffer = []).
Proof.
  rewrite chat_eq. cbv zeta.
  destruct (switched_frame session_id s) as (Hp1 & Hm1 & _ & _).
  destruct (truthy (current_session_id (switched session_id s))); simpl negb;
    cbv iota; [|discriminate].
  destruct (summarize_phase_frame llm (counted (switched session_id s)))
    as (Hp3 & _ & Hm3 & _).
  destruct (summarize_phase llm (counted (switched session_id s))) as [[[]|e] s3];
    [|discriminate].
  simpl in Hp3, Hm3. rewrite Hp1 in Hp3. rewrite Hm1 in Hm3.
  rewrite enhanced_message_append.
  replace (context_at (str_of (current_session_id (switched session_id s))) s3)
    with (context_at (str_of (current_session_id (switched session_id s))) s)
    by (unfold context_at; rewrite Hp3; reflexivity).
  destruct (complete llm (messages (session_memory s3)) _) as [r|] eqn:Hllm;
    [|discriminate].
  simpl fst. intros H. injection H as <-.
  exists (session_memory s3). split; [exact Hllm|exact Hm3].
Qed.

(** X14: the text given to the model is the context of the active session's
    profile followed by the message: the name if there is one, then the
    preferences in the order they were first set. A session without a
    profile, and a profile with neither a name nor preferences, send the
    message as it is. *)
Theorem chat_prompt_prefix (llm : ChatOpenAI) (message : string)
    (session_id : option string) (s s' : StatefulChatbot) (response : string) :
  chat llm message session_id s = (Return response, s') →
  ∃ active history,
    current_session_id s' = Some active
    ∧ complete llm history
        (match user_profiles s !! active with
         | Some p =>
             (if truthy (name p)
              then "User's name: " +:+ str_of (name p) +:+ ". " else "")
             +:+ (match preferences p with
                  | [] => ""
                  | _ :: _ =>
                      "User preferences: "
                      +:+ String.concat ", "
                            (map (fun kv => fst kv +:+ ": " +:+ snd kv) (preferences p))
                      +:+ ". "
                  end)
             +:+ message
         | None => message
         end) = Some response.
Proof.
  intros Hchat.
  destruct (chat_outcome llm message session_id s) as (Hcur & Hcases).
  destruct (chat_return_asked llm message session_id s response) as (buffer & Hllm & _).
  { rewrite Hchat. reflexivity. }
  rewrite Hchat in Hcur. simpl in Hcur.
  assert (Htruthy : truthy (current_session_id (switched session_id s)) = true).
  { destruct Hcases as [H|[H|H]].
    - destruct H as (H & _). rewrite Hchat in H. discriminate H.
    - destruct H as (_ & H & _). exact H.
    - destruct H as (_ & _ & _ & _ & H & _). exact H. }
  exists (str_of (current_session_id (switched session_id s))), (messages buffer).
  split; [rewrite Hcur; apply truthy_str_of, Htruthy|].
  unfold context_at in Hllm.
  destruct (user_profiles s !! _) as [p|]; [|exact Hllm].
  unfold context_of_profile, render_preferences in Hllm.
  rewrite append_assoc in Hllm.
  destruct (preferences p) as [|kv rest]; exact Hllm.
Qed.

Lemma chat_prompt_prefix_witness :
  ∃ history,
    complete (constant_llm "yo") history
      ("User's name: Ann. User preferences: color: blue. again") = Some "yo".
Proof.
  destruct (chat_prompt_prefix (constant_llm "yo") "again" None ann_after_three_turns
              (snd (chat (constant_llm "yo") "again" None ann_after_three_turns)) "yo")
    as (active & history & Hcur & Hllm).
  - vm_compute. reflexivity.
  - exists history. reflexivity.
Defined.

(** X15: a [chat] that names another non-empty session id asks the model
    with the buffer the previous session left: the turns of the session that
    was active before are the history of the first request of the new one. *)
Theorem switched_chat_sees_previous_buffer (llm : ChatOpenAI)
    (message session_id : string) (s s' : StatefulChatbot) (response : string) :
  session_id ≠ "" →
  Some session_id ≠ current_session_id s →
  chat llm message (Some session_id) s = (Return response, s') →
  ∃ prefix,
    complete llm (messages (session_memory s)) (prefix +:+ message) = Some response
    ∧ current_session_id s' = Some session_id.
Proof.
  intros Hid Hne Hchat.
  destruct (chat_switch_fields llm message session_id s Hid Hne) as (Hcur & _).
  rewrite Hchat in Hcur. simpl in Hcur.
  rewrite chat_switch_eq in Hchat by done.
  rewrite chat_active_below in Hchat;
    [|rewrite started_current; apply truthy_some, Hid
     |apply switches_none
     |rewrite started_count; lia].
  cbv zeta in Hchat. rewrite enhanced_message_append in Hchat.
  replace (session_memory (started session_id None s)) with (session_memory s)
    in Hchat by reflexivity.
  destruct (complete llm (messages (session_memory s)) _) as [r|] eqn:Hllm;
    [|discriminate Hchat].
  injection Hchat as <- _. eauto.
Qed.

Lemma switched_chat_sees_previous_buffer_witness :
  ∃ prefix,
    complete (constant_llm "yo")
      (messages (session_memory ann_after_three_turns)) (prefix +:+ "hello")
    = Some "yo"
    ∧ length (messages (session_memory ann_after_three_turns)) = 6.
Proof.
  destruct (switched_chat_sees_previous_buffer (constant_llm "yo") "hello" "s2"
              ann_after_three_turns
              (snd (chat (constant_llm "yo") "hello" (Some "s2") ann_after_three_turns))
              "yo")
    as (prefix & Hllm & _).
  - discriminate.
  - vm_compute. discriminate.
  - vm_compute. reflexivity.
  - exists prefix. split; [exact Hllm|]. vm_compute. reflexivity.
Defined.

(** ** The text that is summarized *)

Lemma speaker_next i : speaker (S (S i)) = speaker i.
Proof.
  unfold speaker. replace (S (S i)) with (i + 1 * 2) by lia.
  rewrite Nat.Div0.mod_add. reflexivity.
Qed.

Lemma messages_speaker buffer : ∀ i msg,
  messages buffer !! i = Some msg → speaker i = label_of (role msg).
Proof.
  induction buffer as [|e buffer IH]; intros i msg; [discriminate|].
  destruct i as [|[|i]]; simpl.
  - intros H. injection H as <-. reflexivity.
  - intros H. injection H as <-. reflexivity.
  - intros H. rewrite speaker_next. apply IH, H.
Qed.

(** X16: the summary prompt labels a message by its position, and for the
    messages of the buffer the position tells the role: every line of the
    rendered conversation starts with ["Human"] for a human message and with
    ["Assistant"] for a message of the model. *)
Theorem conversation_text_labels (buffer : list Exchange) :
  conversation_text (messages buffer)
  = String.concat nl
      (map (fun msg => label_of (role msg) +:+ ": " +:+ content msg)
         (messages buffer)).
Proof.
  unfold conversation_text. f_equal.
  rewrite <- (imap_const (fun msg => label_of (role msg) +:+ ": " +:+ content msg)).
  apply imap_ext. intros i msg Hmsg. simpl.
  rewrite (messages_speaker buffer i msg Hmsg). reflexivity.
Qed.

(** ** The constructor *)

(** X17: [__init__] raises its [ValueError] exactly when neither the
    [api_key] argument nor the [OPENAI_API_KEY] variable gives a non-empty
    key. Otherwise it returns a chatbot with no active session, no profiles
    and the counter at 0; a non-empty argument wins over the environment for
    each of the three settings, and the model name falls back to
    ["gpt-3.5-turbo"] when the argument is missing or empty and [MODEL_NAME]
    is unset. *)
Theorem init_requires_api_key (key model url : option string)
    (env : gmap string string) :
  (__init__ key model url env = Raise api_key_required
   ↔ truthy key = false ∧ truthy (env !! "OPENAI_API_KEY") = false)
  ∧ (truthy key = true ∨ truthy (env !! "OPENAI_API_KEY") = true →
     ∃ configuration,
       __init__ key model url env = Return (configuration, new_chatbot)
       ∧ truthy (api_key configuration) = true
       ∧ (truthy key = true → api_key configuration = key)
       ∧ (truthy key = false → api_key configuration = env !! "OPENAI_API_KEY")
       ∧ (truthy model = true → model_name configuration = model)
       ∧ (truthy model = false → env !! "MODEL_NAME" = None →
          model_name configuration = Some "gpt-3.5-turbo")
       ∧ (truthy url = true → base_url configuration = url)
       ∧ (truthy url = false → base_url configuration = env !! "BASE_URL")).
Proof.
  unfold __init__, py_or, getenv, getenv_default. split.
  - destruct (truthy key) eqn:Hk.
    + rewrite Hk. simpl. split; [discriminate|]. intros [H _]. discriminate H.
    + destruct (truthy (env !! "OPENAI_API_KEY")) eqn:He; simpl.
      * split; [discriminate|]. intros [_ H]. discriminate H.
      * split; auto.
  - intros Hkey. eexists.
    assert (Ht : truthy (if truthy key then key else env !! "OPENAI_API_KEY") = true).
    { destruct (truthy key) eqn:Hk; [exact Hk|].
      destruct Hkey as [H|H]; [discriminate H|exact H]. }
    rewrite Ht. simpl. split; [reflexivity|]. split; [exact Ht|].
    repeat split.
    + intros ->. reflexivity.
    + intros ->. reflexivity.
    + intros ->. reflexivity.
    + intros -> ->. reflexivity.
    + intros ->. reflexivity.
    + intros ->. reflexivity.
Qed.

Lemma init_requires_api_key_witness :
  __init__ None None None ∅ = Raise api_key_required
  ∧ ∃ configuration,
      __init__ (Some "sk-arg") None None {[ "OPENAI_API_KEY" := "sk-env" ]}
      = Return (configuration, new_chatbot)
      ∧ api_key configuration = Some "sk-arg"
      ∧ model_name configuration = Some "gpt-3.5-turbo".
Proof.
  split.
  - apply (init_requires_api_key None None None ∅). split; reflexivity.
  - destruct (init_requires_api_key (Some "sk-arg") None None
                {[ "OPENAI_API_KEY" := "sk-env" ]})
      as (_ & Hok).
    destruct Hok as (configuration & Hinit & _ & Hkey & _ & _ & Hmodel & _).
    + left. reflexivity.
    + exists configuration. split; [exact Hinit|]. split.
      * apply Hkey. reflexivity.
      * apply Hmodel; reflexivity.
Defined.
